(** * TPM 2.0 unsealing in booster's init: a shallow embedding

    The development follows the two revisions of the TPM code of the
    repository:
      - [Rev1] is [src/init/tpm.go] (the authorization value is a TPM hash
        of the unmarshalled password; the PCR predicate is always asserted);
      - [Rev2] is [src/unnamed/part_001] (the authorization value is
        PBKDF2-HMAC-SHA256; the PCR predicate is asserted only for a
        non-empty selection; [getSRKTemplate] is added).

    The Go code talks to the TPM through the go-tpm library.  Every library
    call is an event of a trace; what the device answers is decided by an
    environment that sees the whole history of events so far, so that the
    theorems hold for every deterministic device.  The call of
    [pbkdf2.Key], a pure library function, is logged as an event too, so
    that a trace tells whether a derivation was made.

    The FIDO2 probe of [src/unnamed/part_000] is embedded in [Fido2], its
    cgo calls as events of a trace of their own.  [tpmAwaitReady] (a timed
    wait on a wait group) is not part of this development. *)

From Stdlib Require Import ZArith List String Ascii Bool Lia.
From Stdlib Require Import Strings.Byte.
Import ListNotations.

Local Open Scope string_scope.
Local Open Scope list_scope.
Local Open Scope Z_scope.

(** ** Go data *)

(** A Go [[]byte].  A slice the code never tests against [nil] is its list
    of bytes ([nil] is the empty list); the password, which the code tests
    with [password != nil], is an [option bytes] with [None] for [nil]. *)
Definition bytes := list byte.

(** Go's [error] values are carried by their message. *)
Definition error := string.

(** The pair [(T, error)] a library call returns. *)
Inductive result (A : Type) : Type :=
| Ok (a : A)
| Err (e : error).
Arguments Ok {A} a.
Arguments Err {A} e.

(** [len(s)] of a slice. *)
Definition len {A} (s : list A) : Z := Z.of_nat (List.length s).

(** [make([]byte, n)]: [n] zero bytes. *)
Definition make_bytes (n : Z) : bytes := repeat x00 (Z.to_nat n).

(** A possibly-nil slice read as its bytes ([nil] has no elements). *)
Definition slice_bytes (s : option bytes) : bytes :=
  match s with
  | Some b => b
  | None => []
  end.

(** [string(b)] for a byte slice [b]. *)
Definition string_of_bytes (b : bytes) : string := string_of_list_byte b.

(** [bytes.Equal]: same length and the same bytes (a nil slice equals an
    empty one). *)
Fixpoint bytes_Equal (a b : bytes) : bool :=
  match a, b with
  | [], [] => true
  | x :: a', y :: b' => Byte.eqb x y && bytes_Equal a' b'
  | _, _ => false
  end.

(** [fmt.Errorf(prefix + "%v", err)]. *)
Definition Errorf_v (prefix : string) (err : error) : error :=
  (prefix ++ err)%string.

(** ** go-tpm constants (TPM 2.0 library specification, part 2) *)

Definition Handle := Z.      (* tpmutil.Handle, a uint32 *)
Definition Algorithm := Z.   (* tpm2.Algorithm, a uint16 *)
Definition KeyProp := Z.     (* tpm2.KeyProp, a uint32 *)
Definition Conn := Z.        (* the opened io.ReadWriteCloser *)

Definition HandleOwner : Handle := 0x40000001.
Definition HandleNull : Handle := 0x40000007.

Definition AlgRSA : Algorithm := 0x0001.
Definition AlgSHA1 : Algorithm := 0x0004.
Definition AlgAES : Algorithm := 0x0006.
Definition AlgSHA256 : Algorithm := 0x000B.
Definition AlgNull : Algorithm := 0x0010.
Definition AlgECC : Algorithm := 0x0023.
Definition AlgCFB : Algorithm := 0x0043.

Definition CurveNISTP256 : Z := 0x0003.
Definition SessionPolicy : Z := 0x01.

Definition FlagFixedTPM : KeyProp := 0x00000002.
Definition FlagFixedParent : KeyProp := 0x00000010.
Definition FlagSensitiveDataOrigin : KeyProp := 0x00000020.
Definition FlagUserWithAuth : KeyProp := 0x00000040.
Definition FlagNoDA : KeyProp := 0x00000400.
Definition FlagRestricted : KeyProp := 0x00010000.
Definition FlagDecrypt : KeyProp := 0x00020000.

(** The hash constructor handed to [pbkdf2.Key]. *)
Inductive HashNew : Type :=
| sha256_New.

Record SymScheme := {
  Alg : Algorithm;
  SymKeyBits : Z;
  Mode : Algorithm
}.

Record RSAParams := {
  RSASymmetric : option SymScheme;
  KeyBits : Z;
  ModulusRaw : bytes
}.

Record ECCParams := {
  ECCSymmetric : option SymScheme;
  CurveID : Z
}.

Record Public := {
  Type_ : Algorithm;
  NameAlg : Algorithm;
  Attributes : KeyProp;
  AuthPolicy : bytes;
  RSAParameters : option RSAParams;
  ECCParameters : option ECCParams
}.

Record PCRSelection := {
  Hash : Algorithm;
  PCRs : list Z
}.

(** The zero values [tpm2.Public{}] and [tpm2.PCRSelection{}]. *)
Definition Public_zero : Public :=
  {| Type_ := 0; NameAlg := 0; Attributes := 0; AuthPolicy := [];
     RSAParameters := None; ECCParameters := None |}.

Definition PCRSelection_zero : PCRSelection :=
  {| Hash := 0; PCRs := [] |}.

(** ** Events: one per library call, with what it answered *)

Inductive Event : Type :=
| EvDial (network address : string) (r : result Conn)
| EvOpenTPM (path : string) (r : result Conn)
| EvGetManufacturer (dev : Conn) (r : result bytes)
| EvStartAuthSession (dev : Conn) (tpmKey bindKey : Handle)
    (nonceCaller : bytes) (encryptedSalt : bytes) (sessionType : Z)
    (symmetric authHash : Algorithm) (r : result Handle)
| EvPolicyPCR (dev : Conn) (session : Handle) (expectedDigest : bytes)
    (sel : PCRSelection) (r : result unit)
| EvPolicyPassword (dev : Conn) (session : Handle) (r : result unit)
| EvPolicyGetDigest (dev : Conn) (session : Handle) (r : result bytes)
| EvCreatePrimary (dev : Conn) (owner : Handle) (sel : PCRSelection)
    (parentPassword ownerPassword : string) (template : Public)
    (r : result Handle)
| EvLoad (dev : Conn) (parent : Handle) (parentAuth : string)
    (publicBlob privateBlob : bytes) (r : result Handle)
| EvHash (dev : Conn) (alg : Algorithm) (buf : bytes) (hierarchy : Handle)
    (r : result bytes)
| EvUnsealWithSession (dev : Conn) (session item : Handle) (password : string)
    (r : result bytes)
| EvFlushContext (dev : Conn) (h : Handle) (r : result unit)
| EvClose (dev : Conn) (r : result unit)
| EvPbkdf2Key (password salt : bytes) (iter keyLen : Z) (h : HashNew)
    (out : bytes)
| EvConsole (msg : string).

Definition History := list Event.

(** ** The environment: the package variable, the device and the libraries

    Each device operation sees the history of events before it.  The values
    a call returns and the Go code drops (the nonce of [StartAuthSession],
    the public key of [CreatePrimary], the name of [Load], the ticket of
    [Hash]) are left out. *)

Record Env := {
  enableSwEmulator : bool;
  dial : History -> string -> string -> result Conn;
  openDevice : History -> string -> result Conn;
  getManufacturer : History -> Conn -> result bytes;
  startAuthSession : History -> Conn -> Handle -> Handle -> bytes ->
    bytes -> Z -> Algorithm -> Algorithm -> result Handle;
  policyPCR : History -> Conn -> Handle -> bytes -> PCRSelection ->
    result unit;
  policyPassword : History -> Conn -> Handle -> result unit;
  policyGetDigest : History -> Conn -> Handle -> result bytes;
  createPrimary : History -> Conn -> Handle -> PCRSelection -> string ->
    string -> Public -> result Handle;
  load : History -> Conn -> Handle -> string -> bytes -> bytes ->
    result Handle;
  hash : History -> Conn -> Algorithm -> bytes -> Handle -> result bytes;
  unsealWithSession : History -> Conn -> Handle -> Handle -> string ->
    result bytes;
  flushContext : History -> Conn -> Handle -> result unit;
  close : History -> Conn -> result unit;
  (* pure library functions *)
  pbkdf2 : bytes -> bytes -> Z -> Z -> HashNew -> bytes;
  unmarshalU16Bytes : bytes -> result bytes
}.

(** ** The monad of the embedding

    A computation reads the environment and the history before it, and
    returns its value with the events it added. *)

Definition M (A : Type) : Type := Env -> History -> A * list Event.

Definition ret {A} (a : A) : M A := fun _ _ => (a, []).

Definition bind {A B} (m : M A) (f : A -> M B) : M B :=
  fun env h =>
    let (a, t1) := m env h in
    let (b, t2) := f a env (h ++ t1) in
    (b, t1 ++ t2).

Declare Scope go_scope.
Delimit Scope go_scope with go.
Notation "x <- c1 ;; c2" := (bind c1 (fun x => c2))
  (at level 61, c1 at next level, right associativity) : go_scope.
Notation "c1 ;; c2" := (bind c1 (fun _ => c2))
  (at level 61, right associativity) : go_scope.
Local Open Scope go_scope.

(** One library call: ask the environment, log the event. *)
Definition call {A} (ask : Env -> History -> A) (ev : A -> Event) : M A :=
  fun env h => let r := ask env h in (r, [ev r]).

(** [defer cleanup] followed by [body]: the cleanup runs when the function
    returns, whatever [body] returned.  Nesting gives Go's last-in first-out
    order. *)
Definition defer {A B} (cleanup : M B) (body : M A) : M A :=
  a <- body ;; cleanup ;; ret a.

(** The value and the events of a run. *)
Definition value_of {A} (m : M A) (env : Env) (h : History) : A :=
  fst (m env h).
Definition events_of {A} (m : M A) (env : Env) (h : History) : list Event :=
  snd (m env h).

(** ** Library calls *)

Definition net_Dial (network address : string) : M (result Conn) :=
  call (fun env h => dial env h network address) (EvDial network address).

Definition tpm2_OpenTPM (path : string) : M (result Conn) :=
  call (fun env h => openDevice env h path) (EvOpenTPM path).

Definition tpm2_GetManufacturer (dev : Conn) : M (result bytes) :=
  call (fun env h => getManufacturer env h dev) (EvGetManufacturer dev).

Definition tpm2_StartAuthSession (dev : Conn) (tpmKey bindKey : Handle)
    (nonceCaller : bytes) (encryptedSalt : bytes) (sessionType : Z)
    (symmetric authHash : Algorithm) : M (result Handle) :=
  call (fun env h => startAuthSession env h dev tpmKey bindKey nonceCaller
                       encryptedSalt sessionType symmetric authHash)
       (EvStartAuthSession dev tpmKey bindKey nonceCaller encryptedSalt
                           sessionType symmetric authHash).

Definition tpm2_PolicyPCR (dev : Conn) (session : Handle)
    (expectedDigest : bytes) (sel : PCRSelection) : M (result unit) :=
  call (fun env h => policyPCR env h dev session expectedDigest sel)
       (EvPolicyPCR dev session expectedDigest sel).

Definition tpm2_PolicyPassword (dev : Conn) (session : Handle)
    : M (result unit) :=
  call (fun env h => policyPassword env h dev session)
       (EvPolicyPassword dev session).

Definition tpm2_PolicyGetDigest (dev : Conn) (session : Handle)
    : M (result bytes) :=
  call (fun env h => policyGetDigest env h dev session)
       (EvPolicyGetDigest dev session).

Definition tpm2_CreatePrimary (dev : Conn) (owner : Handle)
    (sel : PCRSelection) (parentPassword ownerPassword : string)
    (template : Public) : M (result Handle) :=
  call (fun env h => createPrimary env h dev owner sel parentPassword
                       ownerPassword template)
       (EvCreatePrimary dev owner sel parentPassword ownerPassword template).

Definition tpm2_Load (dev : Conn) (parent : Handle) (parentAuth : string)
    (publicBlob privateBlob : bytes) : M (result Handle) :=
  call (fun env h => load env h dev parent parentAuth publicBlob privateBlob)
       (EvLoad dev parent parentAuth publicBlob privateBlob).

Definition tpm2_Hash (dev : Conn) (alg : Algorithm) (buf : bytes)
    (hierarchy : Handle) : M (result bytes) :=
  call (fun env h => hash env h dev alg buf hierarchy)
       (EvHash dev alg buf hierarchy).

Definition tpm2_UnsealWithSession (dev : Conn) (session item : Handle)
    (password : string) : M (result bytes) :=
  call (fun env h => unsealWithSession env h dev session item password)
       (EvUnsealWithSession dev session item password).

Definition tpm2_FlushContext (dev : Conn) (h : Handle) : M (result unit) :=
  call (fun env hist => flushContext env hist dev h) (EvFlushContext dev h).

Definition dev_Close (dev : Conn) : M (result unit) :=
  call (fun env h => close env h dev) (EvClose dev).

Definition pbkdf2_Key (password salt : bytes) (iter keyLen : Z) (h : HashNew)
    : M bytes :=
  call (fun env _ => pbkdf2 env password salt iter keyLen h)
       (EvPbkdf2Key password salt iter keyLen h).

(** [var buffer tpmutil.U16Bytes; buffer.TPMUnmarshal(bytes.NewBuffer(p))]. *)
Definition U16Bytes_TPMUnmarshal (p : bytes) : M (result bytes) :=
  fun env _ => (unmarshalU16Bytes env p, []).

(** Reading the package variable [enableSwEmulator]. *)
Definition read_enableSwEmulator : M bool :=
  fun env _ => (enableSwEmulator env, []).

(** [console(msg)], the logger of the init program. *)
Definition console (msg : string) : M unit :=
  fun _ _ => (tt, [EvConsole msg]).

(** ** [base64.StdEncoding.EncodeToString]

    The standard alphabet with [=] padding, three bytes to four characters,
    as Go's [encoding/base64] computes it. *)

Definition encodeStd : string :=
  "ABCDEFGHIJKLMNOPQRSTUVWXYZabcdefghijklmnopqrstuvwxyz0123456789+/".

Definition base64_digit (v : N) : ascii :=
  match String.get (N.to_nat (N.land v 0x3F)) encodeStd with
  | Some c => c
  | None => "="%char
  end.

Fixpoint base64_EncodeToString (src : bytes) : string :=
  match src with
  | [] => EmptyString
  | [a] =>
      let v := N.shiftl (Byte.to_N a) 16 in
      String (base64_digit (N.shiftr v 18))
        (String (base64_digit (N.shiftr v 12)) "==")
  | [a; b] =>
      let v := N.lor (N.shiftl (Byte.to_N a) 16) (N.shiftl (Byte.to_N b) 8) in
      String (base64_digit (N.shiftr v 18))
        (String (base64_digit (N.shiftr v 12))
           (String (base64_digit (N.shiftr v 6)) "="))
  | a :: b :: c :: rest =>
      let v := N.lor (N.lor (N.shiftl (Byte.to_N a) 16)
                            (N.shiftl (Byte.to_N b) 8)) (Byte.to_N c) in
      String (base64_digit (N.shiftr v 18))
        (String (base64_digit (N.shiftr v 12))
           (String (base64_digit (N.shiftr v 6))
              (String (base64_digit v) (base64_EncodeToString rest))))
  end.

Example base64_Man : base64_EncodeToString [x4d; x61; x6e] = "TWFu".
Proof. reflexivity. Qed.
Example base64_Ma : base64_EncodeToString [x4d; x61] = "TWE=".
Proof. reflexivity. Qed.
Example base64_M : base64_EncodeToString [x4d] = "TQ==".
Proof. reflexivity. Qed.

(** ** Package-level values shared by the two revisions *)

Definition defaultSymScheme : SymScheme :=
  {| Alg := AlgAES; SymKeyBits := 128; Mode := AlgCFB |}.

Definition defaultRSAParams : RSAParams :=
  {| RSASymmetric := Some defaultSymScheme; KeyBits := 2048;
     ModulusRaw := [] |}.

Definition defaultECCParams : ECCParams :=
  {| ECCSymmetric := Some defaultSymScheme; CurveID := CurveNISTP256 |}.

(** The attribute word both revisions give the storage root key. *)
Definition srkAttributes : KeyProp :=
  Z.lor (Z.lor (Z.lor (Z.lor (Z.lor (Z.lor FlagFixedTPM FlagFixedParent)
    FlagSensitiveDataOrigin) FlagUserWithAuth) FlagRestricted) FlagDecrypt)
    FlagNoDA.

(** The error messages of the code, named after the spec's error kinds. *)
Definition NotAModule : error := "device is not a TPM 2.0".
Definition PolicyMismatch : error :=
  "current policy digest does not match stored policy digest, cancelling TPM2 authentication attempt".
Definition UnsupportedAlgorithm : error :=
  "failed getting srk template because encryption algorithm is not ecc/rsa".

(** What [policyPCRSession] returns: [(handle, policy, retErr)]. *)
Definition SessionResult : Type := Handle * bytes * option error.

(** ** Revision 1: [src/init/tpm.go] *)

Module Rev1.

Definition openTPM : M (result Conn) :=
  emulated <- read_enableSwEmulator ;;
  r <- (if emulated
        then net_Dial "tcp" ":2321"
        else tpm2_OpenTPM "/dev/tpmrm0") ;;
  match r with
  | Err err => ret (Err err)
  | Ok dev =>
      m <- tpm2_GetManufacturer dev ;;
      match m with
      | Err _ => ret (Err NotAModule)
      | Ok _ => ret (Ok dev)
      end
  end.

Definition parsePCRBank (bank : string) : Algorithm :=
  if String.eqb bank "sha1" then AlgSHA1
  else if String.eqb bank "sha256" then AlgSHA256
  else AlgSHA256.

Definition policyPCRSession (dev : Conn) (pcrs : list Z) (algo : Algorithm)
    (expectedDigest : bytes) (usePassword : bool) : M SessionResult :=
  s <- tpm2_StartAuthSession dev HandleNull HandleNull (make_bytes 32) []
         SessionPolicy AlgNull AlgSHA256 ;;
  match s with
  | Err err =>
      ret (HandleNull, [], Some (Errorf_v "unable to start session: " err))
  | Ok sessHandle =>
      let pcrSelection := {| Hash := algo; PCRs := pcrs |} in
      p <- tpm2_PolicyPCR dev sessHandle [] pcrSelection ;;
      match p with
      | Err err =>
          ret (HandleNull, [],
               Some (Errorf_v "unable to bind PCRs to auth policy: " err))
      | Ok _ =>
          w <- (if usePassword
                then tpm2_PolicyPassword dev sessHandle
                else ret (Ok tt)) ;;
          match w with
          | Err err => ret (HandleNull, [], Some err)
          | Ok _ =>
              d <- tpm2_PolicyGetDigest dev sessHandle ;;
              match d with
              | Err err =>
                  ret (HandleNull, [],
                       Some (Errorf_v "unable to get policy digest: " err))
              | Ok policy =>
                  if negb (bytes_Equal policy expectedDigest)
                  then ret (HandleNull, [], Some PolicyMismatch)
                  else ret (sessHandle, policy, None)
              end
          end
      end
  end.

Definition srkTemplate : Public :=
  {| Type_ := AlgRSA;
     NameAlg := AlgSHA256;
     Attributes := srkAttributes;
     AuthPolicy := [];
     RSAParameters :=
       Some {| RSASymmetric :=
                 Some {| Alg := AlgAES; SymKeyBits := 128; Mode := AlgCFB |};
               KeyBits := 2048;
               ModulusRaw := make_bytes 256 |};
     ECCParameters := None |}.

Definition tpm2Unseal (public private : bytes) (pcrs : list Z)
    (bank : Algorithm) (policyHash : bytes) (password : option bytes)
    : M (result bytes) :=
  o <- openTPM ;;
  match o with
  | Err err => ret (Err err)
  | Ok dev =>
    defer (dev_Close dev) (
    s <- policyPCRSession dev pcrs bank policyHash
           (match password with Some _ => true | None => false end) ;;
    match s with
    | (_, _, Some err) => ret (Err err)
    | (sessHandle, _, None) =>
      defer (tpm2_FlushContext dev sessHandle) (
      k <- tpm2_CreatePrimary dev HandleOwner PCRSelection_zero EmptyString
             EmptyString srkTemplate ;;
      match k with
      | Err err =>
          ret (Err (Errorf_v "clevis.go/tpm2: can't create primary key: " err))
      | Ok srkHandle =>
        defer (tpm2_FlushContext dev srkHandle) (
        l <- tpm2_Load dev srkHandle EmptyString public private ;;
        match l with
        | Err err =>
            ret (Err (Errorf_v "clevis.go/tpm2: unable to load data: " err))
        | Ok objectHandle =>
          defer (tpm2_FlushContext dev objectHandle) (
          b <- U16Bytes_TPMUnmarshal (slice_bytes password) ;;
          match b with
          | Err _ => ret (Err "tpmutil: failed when unmarshalling buffer")
          | Ok buffer =>
              g <- tpm2_Hash dev bank buffer objectHandle ;;
              match g with
              | Err _ =>
                  ret (Err "tpm2: failed when computing hash for buffer")
              | Ok digest =>
                  u <- tpm2_UnsealWithSession dev sessHandle objectHandle
                         (string_of_bytes digest) ;;
                  match u with
                  | Err err =>
                      ret (Err (Errorf_v "unable to unseal data: " err))
                  | Ok unsealed =>
                      console "Recovered unsealed data from tpm" ;;
                      ret (Ok unsealed)
                  end
              end
          end)
        end)
      end)
    end)
  end.

End Rev1.

(** ** Revision 2: [src/unnamed/part_001] *)

Module Rev2.

Definition openTPM : M (result Conn) :=
  emulated <- read_enableSwEmulator ;;
  r <- (if emulated
        then net_Dial "tcp" ":2321"
        else tpm2_OpenTPM "/dev/tpmrm0") ;;
  match r with
  | Err err => ret (Err err)
  | Ok dev =>
      m <- tpm2_GetManufacturer dev ;;
      match m with
      | Err _ => ret (Err NotAModule)
      | Ok _ => ret (Ok dev)
      end
  end.

Definition getSRKTemplate (encryptAlg : string) : Public * option error :=
  if String.eqb encryptAlg "rsa" then
    ({| Type_ := AlgRSA;
        NameAlg := AlgSHA256;
        Attributes := srkAttributes;
        AuthPolicy := [];
        RSAParameters := Some defaultRSAParams;
        ECCParameters := None |}, None)
  else if String.eqb encryptAlg "ecc" then
    ({| Type_ := AlgECC;
        NameAlg := AlgSHA256;
        Attributes := srkAttributes;
        AuthPolicy := [];
        RSAParameters := None;
        ECCParameters := Some defaultECCParams |}, None)
  else (Public_zero, Some UnsupportedAlgorithm).

Definition parsePCRBank (bank : string) : Algorithm :=
  if String.eqb bank "sha1" then AlgSHA1
  else if String.eqb bank "sha256" then AlgSHA256
  else AlgSHA256.

Definition policyPCRSession (dev : Conn) (pcrs : list Z) (algo : Algorithm)
    (expectedDigest : bytes) (usePassword : bool) : M SessionResult :=
  s <- tpm2_StartAuthSession dev HandleNull HandleNull (make_bytes 16) []
         SessionPolicy AlgNull AlgSHA256 ;;
  match s with
  | Err err =>
      ret (HandleNull, [], Some (Errorf_v "unable to start session: " err))
  | Ok sessHandle =>
      let pcrSelection := {| Hash := algo; PCRs := pcrs |} in
      p <- (if len pcrs >? 0
            then tpm2_PolicyPCR dev sessHandle [] pcrSelection
            else ret (Ok tt)) ;;
      match p with
      | Err err =>
          ret (HandleNull, [],
               Some (Errorf_v "unable to bind PCRs to auth policy: " err))
      | Ok _ =>
          w <- (if usePassword
                then tpm2_PolicyPassword dev sessHandle
                else ret (Ok tt)) ;;
          match w with
          | Err err => ret (HandleNull, [], Some err)
          | Ok _ =>
              d <- tpm2_PolicyGetDigest dev sessHandle ;;
              match d with
              | Err err =>
                  ret (HandleNull, [],
                       Some (Errorf_v "unable to get policy digest: " err))
              | Ok policy =>
                  if negb (bytes_Equal policy expectedDigest)
                  then ret (HandleNull, [], Some PolicyMismatch)
                  else ret (sessHandle, policy, None)
              end
          end
      end
  end.

(** The template built inside [tpm2Unseal] (the "RSA srk template"). *)
Definition srkTemplate : Public :=
  {| Type_ := AlgRSA;
     NameAlg := AlgSHA256;
     Attributes := srkAttributes;
     AuthPolicy := [];
     RSAParameters :=
       Some {| RSASymmetric :=
                 Some {| Alg := AlgAES; SymKeyBits := 128; Mode := AlgCFB |};
               KeyBits := 2048;
               ModulusRaw := [] |};
     ECCParameters := None |}.

Definition PBKDF2_HMAC_SHA256_ITERATIONS : Z := 10000.

Definition tpm2Unseal (public private : bytes) (pcrs : list Z)
    (bank : Algorithm) (policyHash : bytes) (password : option bytes)
    (encryptAlg : string) (srk : bytes) (salt : bytes) : M (result bytes) :=
  o <- openTPM ;;
  match o with
  | Err err => ret (Err err)
  | Ok dev =>
    defer (dev_Close dev) (
    s <- policyPCRSession dev pcrs bank policyHash
           (match password with Some _ => true | None => false end) ;;
    match s with
    | (_, _, Some err) => ret (Err err)
    | (sessHandle, _, None) =>
      defer (tpm2_FlushContext dev sessHandle) (
      k <- tpm2_CreatePrimary dev HandleOwner PCRSelection_zero EmptyString
             EmptyString srkTemplate ;;
      match k with
      | Err err =>
          ret (Err (Errorf_v "clevis.go/tpm2: can't create primary key: " err))
      | Ok srkHandle =>
        defer (tpm2_FlushContext dev srkHandle) (
        l <- tpm2_Load dev srkHandle EmptyString public private ;;
        match l with
        | Err err =>
            ret (Err (Errorf_v "clevis.go/tpm2: unable to load data: " err))
        | Ok objectHandle =>
          defer (tpm2_FlushContext dev objectHandle) (
          hmac <- pbkdf2_Key (slice_bytes password) salt
                    PBKDF2_HMAC_SHA256_ITERATIONS 32 sha256_New ;;
          u <- tpm2_UnsealWithSession dev sessHandle objectHandle
                 (base64_EncodeToString hmac) ;;
          match u with
          | Err err => ret (Err (Errorf_v "unable to unseal data: " err))
          | Ok unsealed =>
              console "Recovered unsealed data from tpm" ;;
              ret (Ok unsealed)
          end)
        end)
      end)
    end)
  end.

End Rev2.

(** ** Observations on a trace *)

(** Removing one occurrence of a handle (or channel) from the live ones. *)
Fixpoint release (x : Z) (live : list Z) : list Z :=
  match live with
  | [] => []
  | y :: live' => if Z.eqb x y then live' else y :: release x live'
  end.

(** The module handles alive after the events [tr], starting from [live]:
    a handle is alive from the call that created it (a session, a primary
    key, a loaded object) until the device acknowledges its flush. *)
Fixpoint handles_after (live : list Handle) (tr : list Event) : list Handle :=
  match tr with
  | [] => live
  | EvStartAuthSession _ _ _ _ _ _ _ _ (Ok h) :: tr' =>
      handles_after (h :: live) tr'
  | EvCreatePrimary _ _ _ _ _ _ (Ok h) :: tr' => handles_after (h :: live) tr'
  | EvLoad _ _ _ _ _ (Ok h) :: tr' => handles_after (h :: live) tr'
  | EvFlushContext _ h (Ok _) :: tr' => handles_after (release h live) tr'
  | _ :: tr' => handles_after live tr'
  end.

(** The handles an attempt with events [tr] leaves behind. *)
Definition outstanding_handles (tr : list Event) : list Handle :=
  handles_after [] tr.

(** The channels open after the events [tr], starting from [live]. *)
Fixpoint channels_after (live : list Conn) (tr : list Event) : list Conn :=
  match tr with
  | [] => live
  | EvDial _ _ (Ok c) :: tr' => channels_after (c :: live) tr'
  | EvOpenTPM _ (Ok c) :: tr' => channels_after (c :: live) tr'
  | EvClose c (Ok _) :: tr' => channels_after (release c live) tr'
  | _ :: tr' => channels_after live tr'
  end.

Definition open_channels (tr : list Event) : list Conn :=
  channels_after [] tr.

Definition is_close (e : Event) : bool :=
  match e with EvClose _ _ => true | _ => false end.

Definition is_flush (e : Event) : bool :=
  match e with EvFlushContext _ _ _ => true | _ => false end.

Definition is_policyPCR (e : Event) : bool :=
  match e with EvPolicyPCR _ _ _ _ _ => true | _ => false end.

Definition is_pbkdf2 (e : Event) : bool :=
  match e with EvPbkdf2Key _ _ _ _ _ _ => true | _ => false end.

Definition is_hash (e : Event) : bool :=
  match e with EvHash _ _ _ _ _ => true | _ => false end.

Definition is_unseal (e : Event) : bool :=
  match e with EvUnsealWithSession _ _ _ _ _ => true | _ => false end.

Definition is_createPrimary (e : Event) : bool :=
  match e with EvCreatePrimary _ _ _ _ _ _ _ => true | _ => false end.

(** A flush the device refused. *)
Definition is_failed_flush (e : Event) : bool :=
  match e with EvFlushContext _ _ (Err _) => true | _ => false end.

(** The authorization values handed to [UnsealWithSession]. *)
Fixpoint presented_auth (tr : list Event) : list string :=
  match tr with
  | [] => []
  | EvUnsealWithSession _ _ _ password _ :: tr' =>
      password :: presented_auth tr'
  | _ :: tr' => presented_auth tr'
  end.

(** The templates handed to [CreatePrimary]. *)
Fixpoint primary_templates (tr : list Event) : list Public :=
  match tr with
  | [] => []
  | EvCreatePrimary _ _ _ _ _ template _ :: tr' =>
      template :: primary_templates tr'
  | _ :: tr' => primary_templates tr'
  end.

(** ** A simulated device, for concrete runs

    The device answers every command; a [Fault] makes one step of the
    pipeline fail.  Sessions get handle [0x03000000], the primary key
    [0x80000000], the loaded object [0x80000001]; the policy digest read back
    is [digest]. *)

Module Sim.

Inductive Fault : Type :=
| NoFault
| FailOpen
| FailManufacturer
| FailStartSession
| FailPolicyPCR
| FailPolicyPassword
| FailGetDigest
| FailCreatePrimary
| FailLoad
| FailHash
| FailUnseal.

Definition fault_eqb (a b : Fault) : bool :=
  match a, b with
  | NoFault, NoFault | FailOpen, FailOpen
  | FailManufacturer, FailManufacturer | FailStartSession, FailStartSession
  | FailPolicyPCR, FailPolicyPCR | FailPolicyPassword, FailPolicyPassword
  | FailGetDigest, FailGetDigest | FailCreatePrimary, FailCreatePrimary
  | FailLoad, FailLoad | FailHash, FailHash | FailUnseal, FailUnseal => true
  | _, _ => false
  end.

Definition answer {A} (f at_ : Fault) (msg : error) (a : A) : result A :=
  if fault_eqb f at_ then Err msg else Ok a.

(** The wire format of a [tpmutil.U16Bytes]: a big-endian 16-bit length,
    then that many bytes. *)
Definition unmarshal (p : bytes) : result bytes :=
  match p with
  | hi :: lo :: rest =>
      let size := N.to_nat (Byte.to_N hi * 256 + Byte.to_N lo) in
      if Nat.leb size (List.length rest) then Ok (firstn size rest)
      else Err "unexpected EOF"
  | _ => Err "EOF"
  end.

Definition secret : bytes := [x73; x65; x63; x72; x65; x74].

Definition env (emulated : bool) (digest : bytes) (f : Fault) : Env :=
  {| enableSwEmulator := emulated;
     dial := fun _ _ _ => answer f FailOpen "connection refused" 7;
     openDevice := fun _ _ => answer f FailOpen "no such device" 3;
     getManufacturer := fun _ _ =>
       answer f FailManufacturer "bad tag" [x49; x42; x4d; x00];
     startAuthSession := fun _ _ _ _ _ _ _ _ _ =>
       answer f FailStartSession "session memory" 0x03000000;
     policyPCR := fun _ _ _ _ _ => answer f FailPolicyPCR "value" tt;
     policyPassword := fun _ _ _ => answer f FailPolicyPassword "handle" tt;
     policyGetDigest := fun _ _ _ => answer f FailGetDigest "handle" digest;
     createPrimary := fun _ _ _ _ _ _ _ =>
       answer f FailCreatePrimary "object memory" 0x80000000;
     load := fun _ _ _ _ _ _ => answer f FailLoad "integrity" 0x80000001;
     hash := fun _ _ alg _ _ =>
       answer f FailHash "hash"
         (repeat x41 (if Z.eqb alg AlgSHA1 then 20 else 32)%nat);
     unsealWithSession := fun _ _ _ _ _ =>
       answer f FailUnseal "auth fail" secret;
     flushContext := fun _ _ _ => Ok tt;
     close := fun _ _ => Ok tt;
     pbkdf2 := fun _ _ _ keyLen _ => repeat xab (Z.to_nat keyLen);
     unmarshalU16Bytes := unmarshal |}.

End Sim.

(** ** More observations on a trace *)

Definition is_startAuthSession (e : Event) : bool :=
  match e with EvStartAuthSession _ _ _ _ _ _ _ _ _ => true | _ => false end.

Definition is_policyPassword (e : Event) : bool :=
  match e with EvPolicyPassword _ _ _ => true | _ => false end.

Definition is_getDigest (e : Event) : bool :=
  match e with EvPolicyGetDigest _ _ _ => true | _ => false end.

Definition is_load (e : Event) : bool :=
  match e with EvLoad _ _ _ _ _ _ => true | _ => false end.

Definition is_getManufacturer (e : Event) : bool :=
  match e with EvGetManufacturer _ _ => true | _ => false end.

(** The handles the device handed out, in the order of their creation. *)
Fixpoint created (tr : list Event) : list Handle :=
  match tr with
  | [] => []
  | EvStartAuthSession _ _ _ _ _ _ _ _ (Ok h) :: tr' => h :: created tr'
  | EvCreatePrimary _ _ _ _ _ _ (Ok h) :: tr' => h :: created tr'
  | EvLoad _ _ _ _ _ (Ok h) :: tr' => h :: created tr'
  | _ :: tr' => created tr'
  end.

(** The handles [FlushContext] was called on, in the order of the calls. *)
Fixpoint flushed (tr : list Event) : list Handle :=
  match tr with
  | [] => []
  | EvFlushContext _ h _ :: tr' => h :: flushed tr'
  | _ :: tr' => flushed tr'
  end.

(** The release phase is final: after a flush only flushes and the close
    follow, and nothing follows the close. *)
Fixpoint cleanup_is_final (tr : list Event) : bool :=
  match tr with
  | [] => true
  | e :: tr' =>
      if is_close e then
        match tr' with [] => true | _ :: _ => false end
      else if is_flush e then
        forallb (fun e' => is_flush e' || is_close e') tr'
        && cleanup_is_final tr'
      else cleanup_is_final tr'
  end.

(** The channel a device command was sent on. *)
Definition event_channel (e : Event) : option Conn :=
  match e with
  | EvGetManufacturer dev _
  | EvStartAuthSession dev _ _ _ _ _ _ _ _
  | EvPolicyPCR dev _ _ _ _
  | EvPolicyPassword dev _ _
  | EvPolicyGetDigest dev _ _
  | EvCreatePrimary dev _ _ _ _ _ _
  | EvLoad dev _ _ _ _ _
  | EvHash dev _ _ _ _
  | EvUnsealWithSession dev _ _ _ _
  | EvFlushContext dev _ _
  | EvClose dev _ => Some dev
  | EvDial _ _ _ | EvOpenTPM _ _ | EvPbkdf2Key _ _ _ _ _ _
  | EvConsole _ => None
  end.

Definition on_channel (dev : Conn) (e : Event) : bool :=
  match event_channel e with
  | Some d => Z.eqb d dev
  | None => true
  end.

(** The steps of the session build, as they appear in a trace. *)
Inductive PolicyStep : Type :=
| StepStart
| StepPCR
| StepPassword
| StepDigest.

Fixpoint policy_steps (tr : list Event) : list PolicyStep :=
  match tr with
  | [] => []
  | EvStartAuthSession _ _ _ _ _ _ _ _ _ :: tr' => StepStart :: policy_steps tr'
  | EvPolicyPCR _ _ _ _ _ :: tr' => StepPCR :: policy_steps tr'
  | EvPolicyPassword _ _ _ :: tr' => StepPassword :: policy_steps tr'
  | EvPolicyGetDigest _ _ _ :: tr' => StepDigest :: policy_steps tr'
  | _ :: tr' => policy_steps tr'
  end.

(** The number of events of a kind in a trace. *)
Definition count (p : Event -> bool) (tr : list Event) : nat :=
  List.length (filter p tr).

(** The event of the open step, as [enableSwEmulator] selects it. *)
Definition open_event (env : Env) (r : result Conn) : Event :=
  if enableSwEmulator env
  then EvDial "tcp" ":2321" r
  else EvOpenTPM "/dev/tpmrm0" r.

(** Each command of the pipeline at most once, and at most three flushes. *)
Definition no_retry (tr : list Event) : bool :=
  forallb (fun kind => Nat.leb (count kind tr) 1)
    [is_getManufacturer; is_startAuthSession; is_policyPCR;
     is_policyPassword; is_getDigest; is_createPrimary; is_load; is_hash;
     is_pbkdf2; is_unseal; is_close]
  && Nat.leb (count is_flush tr) 3.

(** The error [tpm2Unseal] reports for a failed command of the pipeline;
    a failed flush or close is not reported. *)
Definition reported (e : Event) : option error :=
  match e with
  | EvDial _ _ (Err err) | EvOpenTPM _ (Err err) => Some err
  | EvGetManufacturer _ (Err _) => Some NotAModule
  | EvStartAuthSession _ _ _ _ _ _ _ _ (Err err) =>
      Some (Errorf_v "unable to start session: " err)
  | EvPolicyPCR _ _ _ _ (Err err) =>
      Some (Errorf_v "unable to bind PCRs to auth policy: " err)
  | EvPolicyPassword _ _ (Err err) => Some err
  | EvPolicyGetDigest _ _ (Err err) =>
      Some (Errorf_v "unable to get policy digest: " err)
  | EvCreatePrimary _ _ _ _ _ _ (Err err) =>
      Some (Errorf_v "clevis.go/tpm2: can't create primary key: " err)
  | EvLoad _ _ _ _ _ (Err err) =>
      Some (Errorf_v "clevis.go/tpm2: unable to load data: " err)
  | EvHash _ _ _ _ (Err _) =>
      Some "tpm2: failed when computing hash for buffer"
  | EvUnsealWithSession _ _ _ _ (Err err) =>
      Some (Errorf_v "unable to unseal data: " err)
  | _ => None
  end.

(** The steps a session build with these arguments issues when it runs to
    the digest read: revision 2 leaves the PCR predicate out for an empty
    selection, revision 1 never does. *)
Definition session_steps2 (pcrs : list Z) (usePassword : bool)
    : list PolicyStep :=
  [StepStart] ++ (if len pcrs >? 0 then [StepPCR] else [])
  ++ (if usePassword then [StepPassword] else []) ++ [StepDigest].

Definition session_steps1 (usePassword : bool) : list PolicyStep :=
  [StepStart; StepPCR] ++ (if usePassword then [StepPassword] else [])
  ++ [StepDigest].

(** * The FIDO2 device probe: [src/unnamed/part_000]

    The probe calls libfido2 through cgo.  Each C call is an event with
    what it returned, decided by an environment that sees the events so
    far.  The [Device] struct is threaded as a state; its embedded mutex is
    a flag, and a [Lock] on a held mutex blocks the (single) caller. *)

Module Fido2.

Definition Ptr := Z.          (* a C pointer; 0 is NULL, Go's nil *)
Definition nil : Ptr := 0.
Definition FIDO_OK : Z := 0.  (* fido/err.h *)

Record Device := {
  path : string;
  dev : Ptr;
  locked : bool               (* the embedded sync.Mutex *)
}.

Definition set_dev (d : Device) (p : Ptr) : Device :=
  {| path := path d; dev := p; locked := locked d |}.

Definition set_locked (d : Device) (b : bool) : Device :=
  {| path := path d; dev := dev d; locked := b |}.

Inductive Event : Type :=
| EvDevNew (r : Ptr)
| EvCString (s : string) (r : Ptr)
| EvDevOpen (dev : Ptr) (path : Ptr) (rc : Z)
| EvDevIsFido2 (dev : Ptr) (r : bool)
| EvDevClose (dev : Ptr) (rc : Z)
| EvDevFree (dev : Ptr)
| EvLock
| EvUnlock
| EvInfo (msg : string).

Record Env := {
  fido_dev_new : list Event -> Ptr;
  CString : list Event -> string -> Ptr;
  fido_dev_open : list Event -> Ptr -> Ptr -> Z;
  fido_dev_is_fido2 : list Event -> Ptr -> bool;
  fido_dev_close : list Event -> Ptr -> Z
}.

(** How a call ends: it returns, it waits for the mutex for ever, or the
    runtime stops the program. *)
Inductive Outcome (A : Type) : Type :=
| Returned (a : A) (d : Device)
| Blocked (d : Device)
| Fatal (msg : string).
Arguments Returned {A} a d.
Arguments Blocked {A} d.
Arguments Fatal {A} msg.

Definition M (A : Type) : Type :=
  Env -> list Event -> Device -> Outcome A * list Event.

Definition ret {A} (a : A) : M A := fun _ _ d => (Returned a d, []).

Definition bind {A B} (m : M A) (f : A -> M B) : M B :=
  fun env h d =>
    match m env h d with
    | (Returned a d', t1) =>
        let (o, t2) := f a env (h ++ t1) d' in (o, t1 ++ t2)
    | (Blocked d', t1) => (Blocked d', t1)
    | (Fatal msg, t1) => (Fatal msg, t1)
    end.

Declare Scope fido_scope.
Notation "x <- c1 ;; c2" := (bind c1 (fun x => c2))
  (at level 61, c1 at next level, right associativity) : fido_scope.
Notation "c1 ;; c2" := (bind c1 (fun _ => c2))
  (at level 61, right associativity) : fido_scope.
Local Open Scope fido_scope.

Definition call {A} (ask : Env -> list Event -> A) (ev : A -> Event) : M A :=
  fun env h d => let r := ask env h in (Returned r d, [ev r]).

(** [defer cleanup]: the cleanup runs when the body has returned. *)
Definition defer {A B} (cleanup : M B) (body : M A) : M A :=
  a <- body ;; cleanup ;; ret a.

Definition C_fido_dev_new : M Ptr :=
  call (fun env h => fido_dev_new env h) EvDevNew.

Definition C_CString (s : string) : M Ptr :=
  call (fun env h => CString env h s) (EvCString s).

Definition C_fido_dev_open (p cpath : Ptr) : M Z :=
  call (fun env h => fido_dev_open env h p cpath) (EvDevOpen p cpath).

Definition C_fido_dev_is_fido2 (p : Ptr) : M bool :=
  call (fun env h => fido_dev_is_fido2 env h p) (EvDevIsFido2 p).

Definition C_fido_dev_close (p : Ptr) : M Z :=
  call (fun env h => fido_dev_close env h p) (EvDevClose p).

Definition C_fido_dev_free (p : Ptr) : M unit :=
  fun _ _ d => (Returned tt d, [EvDevFree p]).

Definition info (msg : string) : M unit :=
  fun _ _ d => (Returned tt d, [EvInfo msg]).

(** [d.Lock()] and [d.Unlock()]. *)
Definition Lock : M unit :=
  fun _ _ d =>
    if locked d then (Blocked d, [])
    else (Returned tt (set_locked d true), [EvLock]).

Definition Unlock : M unit :=
  fun _ _ d =>
    if locked d then (Returned tt (set_locked d false), [EvUnlock])
    else (Fatal "sync: unlock of unlocked mutex", []).

(** Reading [d.path] and writing [d.dev]. *)
Definition read_path : M string := fun _ _ d => (Returned (path d) d, []).
Definition write_dev (p : Ptr) : M unit :=
  fun _ _ d => (Returned tt (set_dev d p), []).

(** [fmt.Sprintf("%s", path)] is [path]. *)
Definition NewFido2Device (path : string) : Device :=
  {| path := path; dev := nil; locked := false |}.

Definition openFido2Device : M (Ptr * option error) :=
  p <- C_fido_dev_new ;;
  s <- read_path ;;
  cpath <- C_CString s ;;
  cErr <- C_fido_dev_open p cpath ;;
  if negb (Z.eqb cErr FIDO_OK)
  then ret (nil, Some "failed to open hidraw device")
  else write_dev p ;; ret (p, None).

Definition closeFido2Device (p : Ptr) : M unit :=
  Lock ;;
  write_dev nil ;;
  Unlock ;;
  cErr <- C_fido_dev_close p ;;
  (if negb (Z.eqb cErr FIDO_OK)
   then info "failed to close hidraw device"
   else ret tt) ;;
  C_fido_dev_free p.

Definition IsFido2 : M (bool * option error) :=
  o <- openFido2Device ;;
  match o with
  | (_, Some err) => ret (false, Some err)
  | (p, None) =>
      defer (closeFido2Device p)
        (isFido2 <- C_fido_dev_is_fido2 p ;;
         ret (isFido2, None))
  end.

(** A libfido2 that opens devices at paths starting with "/dev/hidraw"
    only, for concrete runs. *)
Definition sim (closeErr : Z) : Env :=
  {| fido_dev_new := fun _ => 0x1000;
     CString := fun _ _ => 0x2000;
     fido_dev_open := fun h _ _ =>
       match h with
       | [_; EvCString s _] =>
           if String.prefix "/dev/hidraw" s then FIDO_OK else (-1)
       | _ => (-1)
       end;
     fido_dev_is_fido2 := fun _ _ => true;
     fido_dev_close := fun _ _ => closeErr |}.

End Fido2.

(** ** Proof support *)

Arguments make_bytes : simpl never.

(** Unfolding a program down to the environment's answers. *)
Ltac unfold_go :=
  unfold value_of, events_of,
    Rev1.tpm2Unseal, Rev2.tpm2Unseal, Rev1.policyPCRSession,
    Rev2.policyPCRSession, Rev1.openTPM, Rev2.openTPM, defer, bind, ret,
    console, read_enableSwEmulator, U16Bytes_TPMUnmarshal, pbkdf2_Key,
    tpm2_OpenTPM, net_Dial, tpm2_GetManufacturer, tpm2_StartAuthSession,
    tpm2_PolicyPCR, tpm2_PolicyPassword, tpm2_PolicyGetDigest,
    tpm2_CreatePrimary, tpm2_Load, tpm2_Hash, tpm2_UnsealWithSession,
    tpm2_FlushContext, dev_Close, call in *.

(** Case analysis on the innermost answer (or test) the run is stuck on. *)
Ltac split_scrutinee :=
  match goal with
  | |- context [match ?x with _ => _ end] =>
      lazymatch x with
      | context [match _ with _ => _ end] => fail
      | _ => destruct x eqn:?
      end
  | H : context [match ?x with _ => _ end] |- _ =>
      lazymatch x with
      | context [match _ with _ => _ end] => fail
      | _ => destruct x eqn:?
      end
  end.

(** Every path of a program, one goal per path. *)
Ltac run_paths := unfold_go; cbn; repeat (split_scrutinee; cbn in *).

(** An event found in a concrete trace is one of its elements. *)
Ltac pick_event :=
  repeat match goal with
  | H : _ \/ _ |- _ => destruct H
  | H : False |- _ => destruct H
  | H : @eq Event _ _ |- _ =>
      first [discriminate H | injection H as ? ; subst | clear H]
  end.

(** [bytes.Equal] is byte-exact equality. *)
Lemma bytes_Equal_eq (a b : bytes) : bytes_Equal a b = true <-> a = b.
Proof.
  revert b; induction a as [|x a IH]; intros [|y b]; simpl;
    try (split; [reflexivity | reflexivity]);
    try (split; discriminate).
  rewrite andb_true_iff, IH. split.
  - intros [Hx ->]. apply Byte.byte_dec_bl in Hx. now subst.
  - intros H. injection H as -> ->.
    split; [now apply Byte.byte_dec_lb | reflexivity].
Qed.

Lemma bytes_Equal_neq (a b : bytes) : bytes_Equal a b = false <-> a <> b.
Proof.
  rewrite <- bytes_Equal_eq. destruct (bytes_Equal a b); split;
    congruence.
Qed.

(** Only the empty input encodes to the empty string. *)
Lemma base64_empty (src : bytes) :
  base64_EncodeToString src = EmptyString <-> src = [].
Proof.
  destruct src as [|a [|b [|c rest]]]; cbn [base64_EncodeToString];
    cbv zeta; split; intros H; try reflexivity; discriminate H.
Qed.

(** Turning the digest test of a path into a (dis)equality of digests. *)
Ltac digest_test :=
  repeat match goal with
  | H : negb _ = true |- _ => apply negb_true_iff in H
  | H : negb _ = false |- _ => apply negb_false_iff in H
  | H : bytes_Equal _ _ = true |- _ => apply bytes_Equal_eq in H
  | H : bytes_Equal _ _ = false |- _ => apply bytes_Equal_neq in H
  end.

(** A handle is never different from itself. *)
Ltac same_handle :=
  repeat match goal with
  | H : Z.eqb ?x ?x = false |- _ => rewrite Z.eqb_refl in H; discriminate H
  end.

Definition is_session_start_ok (e : Event) : bool :=
  match e with
  | EvStartAuthSession _ _ _ _ _ _ _ _ (Ok _) => true
  | _ => false
  end.

(** ** The storage-root-key template *)

Lemma srkAttributes_value : srkAttributes = 0x30472.
Proof. reflexivity. Qed.

(** [getSRKTemplate] itself dispatches on the algorithm name. *)
Lemma getSRKTemplate_rsa :
  Type_ (fst (Rev2.getSRKTemplate "rsa")) = AlgRSA /\
  RSAParameters (fst (Rev2.getSRKTemplate "rsa")) = Some defaultRSAParams /\
  snd (Rev2.getSRKTemplate "rsa") = None.
Proof. repeat split. Qed.

Lemma getSRKTemplate_ecc :
  Type_ (fst (Rev2.getSRKTemplate "ecc")) = AlgECC /\
  ECCParameters (fst (Rev2.getSRKTemplate "ecc")) = Some defaultECCParams /\
  snd (Rev2.getSRKTemplate "ecc") = None.
Proof. repeat split. Qed.

Lemma getSRKTemplate_other (encryptAlg : string) :
  encryptAlg <> "rsa" -> encryptAlg <> "ecc" ->
  Rev2.getSRKTemplate encryptAlg = (Public_zero, Some UnsupportedAlgorithm).
Proof.
  intros Hr He. unfold Rev2.getSRKTemplate.
  destruct (String.eqb_spec encryptAlg "rsa"); [contradiction|].
  destruct (String.eqb_spec encryptAlg "ecc"); [contradiction|].
  reflexivity.
Qed.

(** ** Facts about every run of [tpm2Unseal] *)

Section Rev2Runs.
Variables (public private : bytes) (pcrs : list Z) (bank : Algorithm)
  (policyHash : bytes) (password : option bytes) (encryptAlg : string)
  (srk salt : bytes) (env : Env) (h : History).

(** Reaching the unseal command means one PBKDF2 derivation was made, and
    its output, base64-encoded, is the value presented. *)
Lemma rev2_unseal_auth dev sess obj auth r :
  In (EvUnsealWithSession dev sess obj auth r)
    (events_of (Rev2.tpm2Unseal public private pcrs bank policyHash
                 password encryptAlg srk salt) env h) ->
  auth = base64_EncodeToString
           (pbkdf2 env (slice_bytes password) salt 10000 32 sha256_New) /\
  filter is_pbkdf2
    (events_of (Rev2.tpm2Unseal public private pcrs bank policyHash
                 password encryptAlg srk salt) env h) =
    [EvPbkdf2Key (slice_bytes password) salt 10000 32 sha256_New
       (pbkdf2 env (slice_bytes password) salt 10000 32 sha256_New)].
Proof.
  run_paths; intros Hin; pick_event; split; reflexivity.
Qed.

(** A digest that differs stops the attempt in the session build. *)
Lemma rev2_mismatch_stops dev sess policy :
  In (EvPolicyGetDigest dev sess (Ok policy))
    (events_of (Rev2.tpm2Unseal public private pcrs bank policyHash
                 password encryptAlg srk salt) env h) ->
  policy <> policyHash ->
  value_of (Rev2.tpm2Unseal public private pcrs bank policyHash
                 password encryptAlg srk salt) env h = Err PolicyMismatch /\
  existsb is_pbkdf2
    (events_of (Rev2.tpm2Unseal public private pcrs bank policyHash
                 password encryptAlg srk salt) env h) = false /\
  existsb is_unseal
    (events_of (Rev2.tpm2Unseal public private pcrs bank policyHash
                 password encryptAlg srk salt) env h) = false /\
  existsb is_createPrimary
    (events_of (Rev2.tpm2Unseal public private pcrs bank policyHash
                 password encryptAlg srk salt) env h) = false.
Proof.
  run_paths; intros Hin Hd; pick_event; digest_test;
    try contradiction; auto.
Qed.

(** Whatever [encryptAlg] is, the key is created from the RSA template. *)
Lemma rev2_primary_template :
  Forall (eq Rev2.srkTemplate) (primary_templates
    (events_of (Rev2.tpm2Unseal public private pcrs bank policyHash
                 password encryptAlg srk salt) env h)).
Proof.
  run_paths; repeat constructor.
Qed.

(** Once the session build has succeeded, every handle of the attempt is
    flushed, on every later exit path. *)
Lemma rev2_released_after_session :
  existsb is_createPrimary
    (events_of (Rev2.tpm2Unseal public private pcrs bank policyHash
                 password encryptAlg srk salt) env h) = true ->
  existsb is_failed_flush
    (events_of (Rev2.tpm2Unseal public private pcrs bank policyHash
                 password encryptAlg srk salt) env h) = false ->
  outstanding_handles
    (events_of (Rev2.tpm2Unseal public private pcrs bank policyHash
                 password encryptAlg srk salt) env h) = [].
Proof.
  unfold outstanding_handles.
  run_paths; intros Hk Hf; same_handle; try discriminate; reflexivity.
Qed.

(** When the session build fails after the session was started, nothing
    is flushed, and the session handle stays behind. *)
Lemma rev2_session_leak :
  existsb is_session_start_ok
    (events_of (Rev2.tpm2Unseal public private pcrs bank policyHash
                 password encryptAlg srk salt) env h) = true ->
  existsb is_createPrimary
    (events_of (Rev2.tpm2Unseal public private pcrs bank policyHash
                 password encryptAlg srk salt) env h) = false ->
  existsb is_flush
    (events_of (Rev2.tpm2Unseal public private pcrs bank policyHash
                 password encryptAlg srk salt) env h) = false /\
  List.length (outstanding_handles
    (events_of (Rev2.tpm2Unseal public private pcrs bank policyHash
                 password encryptAlg srk salt) env h)) = 1%nat.
Proof.
  unfold outstanding_handles.
  run_paths; intros Hs Hk; try discriminate; split; reflexivity.
Qed.
End Rev2Runs.

Section Rev1Runs.
Variables (public private : bytes) (pcrs : list Z) (bank : Algorithm)
  (policyHash : bytes) (password : option bytes)
  (env : Env) (h : History).

(** In revision 1 the value presented is the digest the device computed
    over the unmarshalled password; PBKDF2 is never called. *)
Lemma rev1_unseal_auth dev sess obj auth r :
  In (EvUnsealWithSession dev sess obj auth r)
    (events_of (Rev1.tpm2Unseal public private pcrs bank policyHash
                 password) env h) ->
  existsb is_pbkdf2
    (events_of (Rev1.tpm2Unseal public private pcrs bank policyHash
                 password) env h) = false /\
  exists buffer digest,
    unmarshalU16Bytes env (slice_bytes password) = Ok buffer /\
    In (EvHash dev bank buffer obj (Ok digest))
      (events_of (Rev1.tpm2Unseal public private pcrs bank policyHash
                 password) env h) /\
    auth = string_of_bytes digest.
Proof.
  run_paths; intros Hin; pick_event; (split; [reflexivity|]);
    do 2 eexists; (split; [reflexivity|]); (split; [|reflexivity]);
    simpl; auto 20.
Qed.

Lemma rev1_released_after_session :
  existsb is_createPrimary
    (events_of (Rev1.tpm2Unseal public private pcrs bank policyHash
                 password) env h) = true ->
  existsb is_failed_flush
    (events_of (Rev1.tpm2Unseal public private pcrs bank policyHash
                 password) env h) = false ->
  outstanding_handles
    (events_of (Rev1.tpm2Unseal public private pcrs bank policyHash
                 password) env h) = [].
Proof.
  unfold outstanding_handles.
  run_paths; intros Hk Hf; same_handle; try discriminate; reflexivity.
Qed.

Lemma rev1_session_leak :
  existsb is_session_start_ok
    (events_of (Rev1.tpm2Unseal public private pcrs bank policyHash
                 password) env h) = true ->
  existsb is_createPrimary
    (events_of (Rev1.tpm2Unseal public private pcrs bank policyHash
                 password) env h) = false ->
  existsb is_flush
    (events_of (Rev1.tpm2Unseal public private pcrs bank policyHash
                 password) env h) = false /\
  List.length (outstanding_handles
    (events_of (Rev1.tpm2Unseal public private pcrs bank policyHash
                 password) env h)) = 1%nat.
Proof.
  unfold outstanding_handles.
  run_paths; intros Hs Hk; try discriminate; split; reflexivity.
Qed.
End Rev1Runs.

(** ** The claims *)

(** Sample inputs of the concrete runs: a sealed blob, the PCR selection
    [{7}], the recorded digest, a password (with its [U16Bytes] framing for
    revision 1) and a salt. *)
Definition blobPublic : bytes := [x01].
Definition blobPrivate : bytes := [x02].
Definition recorded : bytes := [x0a].
Definition other : bytes := [x0b].
Definition pw : bytes := [x70; x77].
Definition pwFramed : bytes := [x00; x02; x70; x77].
Definition salt16 : bytes := [x01; x02].

(** C1 (code defect): the session handle is not released when the session
    build fails after the session was started.  With the simulated device,
    a digest mismatch, a rejected PCR predicate, a rejected password
    predicate and a failed digest read each leave the session handle
    [0x03000000] outstanding when [tpm2Unseal] returns, in both revisions;
    a rejected load and a rejected unseal leave none. *)
Theorem session_handle_leaks_on_policy_failure :
  let rev2 digest f :=
    outstanding_handles
      (events_of (Rev2.tpm2Unseal blobPublic blobPrivate [7] AlgSHA256
                    recorded (Some pw) "rsa" [] salt16)
                 (Sim.env false digest f) []) in
  let rev1 digest f :=
    outstanding_handles
      (events_of (Rev1.tpm2Unseal blobPublic blobPrivate [7] AlgSHA256
                    recorded (Some pwFramed))
                 (Sim.env false digest f) []) in
  (rev2 other Sim.NoFault = [0x03000000] /\
   rev2 recorded Sim.FailPolicyPCR = [0x03000000] /\
   rev2 recorded Sim.FailPolicyPassword = [0x03000000] /\
   rev2 recorded Sim.FailGetDigest = [0x03000000] /\
   rev2 recorded Sim.FailLoad = [] /\
   rev2 recorded Sim.FailUnseal = [] /\
   rev2 recorded Sim.NoFault = []) /\
  (rev1 other Sim.NoFault = [0x03000000] /\
   rev1 recorded Sim.FailPolicyPCR = [0x03000000] /\
   rev1 recorded Sim.FailPolicyPassword = [0x03000000] /\
   rev1 recorded Sim.FailGetDigest = [0x03000000] /\
   rev1 recorded Sim.FailLoad = [] /\
   rev1 recorded Sim.FailUnseal = [] /\
   rev1 recorded Sim.NoFault = []).
Proof. vm_compute. repeat split. Qed.

(** C2 (counterexample): in revision 1, with the SHA-1 bank, the value
    presented to the unseal command is the 20-byte digest the device
    computed over the unmarshalled password; no PBKDF2 derivation is made
    and the value does not have 32 bytes. *)
Lemma rev1_auth_is_a_device_hash :
  let tr :=
    events_of (Rev1.tpm2Unseal blobPublic blobPrivate [7] AlgSHA1 recorded
                 (Some pwFramed))
              (Sim.env false recorded Sim.NoFault) [] in
  presented_auth tr = ["AAAAAAAAAAAAAAAAAAAA"] /\
  map String.length (presented_auth tr) = [20%nat] /\
  existsb is_pbkdf2 tr = false /\
  existsb is_hash tr = true.
Proof. vm_compute. repeat split. Qed.

(** C2 (amended): in revision 2, whenever the unseal command is reached,
    exactly one derivation was made, it is
    [pbkdf2.Key(password, salt, 10000, 32, sha256.New)], and the base64
    encoding of its output is the value presented; in revision 1, the value
    presented is the digest of the device's [Hash] command over the
    unmarshalled password, and PBKDF2 is not called. *)
Theorem auth_value_derivation
    (public private : bytes) (pcrs : list Z) (bank : Algorithm)
    (policyHash : bytes) (password : option bytes) (encryptAlg : string)
    (srk salt : bytes) (env : Env) (h : History)
    (dev : Conn) (sess obj : Handle) (auth : string) (r : result bytes) :
  (In (EvUnsealWithSession dev sess obj auth r)
      (events_of (Rev2.tpm2Unseal public private pcrs bank policyHash
                    password encryptAlg srk salt) env h) ->
   filter is_pbkdf2
     (events_of (Rev2.tpm2Unseal public private pcrs bank policyHash
                   password encryptAlg srk salt) env h) =
     [EvPbkdf2Key (slice_bytes password) salt 10000 32 sha256_New
        (pbkdf2 env (slice_bytes password) salt 10000 32 sha256_New)] /\
   auth = base64_EncodeToString
            (pbkdf2 env (slice_bytes password) salt 10000 32 sha256_New)) /\
  (In (EvUnsealWithSession dev sess obj auth r)
      (events_of (Rev1.tpm2Unseal public private pcrs bank policyHash
                    password) env h) ->
   existsb is_pbkdf2
     (events_of (Rev1.tpm2Unseal public private pcrs bank policyHash
                   password) env h) = false /\
   exists buffer digest,
     unmarshalU16Bytes env (slice_bytes password) = Ok buffer /\
     In (EvHash dev bank buffer obj (Ok digest))
        (events_of (Rev1.tpm2Unseal public private pcrs bank policyHash
                      password) env h) /\
     auth = string_of_bytes digest).
Proof.
  split; intros Hin.
  - destruct (rev2_unseal_auth _ _ _ _ _ _ _ _ _ _ _ _ _ _ _ _ Hin)
      as [Ha Hk].
    split; assumption.
  - exact (rev1_unseal_auth _ _ _ _ _ _ _ _ _ _ _ _ _ Hin).
Qed.

Lemma auth_value_derivation_witness :
  let env := Sim.env false recorded Sim.NoFault in
  let auth2 := "q6urq6urq6urq6urq6urq6urq6urq6urq6urq6urq6s=" in
  let auth1 := "AAAAAAAAAAAAAAAAAAAA" in
  In (EvUnsealWithSession 3 0x03000000 0x80000001 auth2 (Ok Sim.secret))
     (events_of (Rev2.tpm2Unseal blobPublic blobPrivate [7] AlgSHA256
                   recorded (Some pw) "rsa" [] salt16) env []) /\
  auth2 = base64_EncodeToString (pbkdf2 env pw salt16 10000 32 sha256_New) /\
  In (EvUnsealWithSession 3 0x03000000 0x80000001 auth1 (Ok Sim.secret))
     (events_of (Rev1.tpm2Unseal blobPublic blobPrivate [7] AlgSHA1
                   recorded (Some pwFramed)) env []) /\
  existsb is_pbkdf2
    (events_of (Rev1.tpm2Unseal blobPublic blobPrivate [7] AlgSHA1
                  recorded (Some pwFramed)) env []) = false.
Proof.
  intros env auth2 auth1.
  assert (H2 : In (EvUnsealWithSession 3 0x03000000 0x80000001 auth2
                     (Ok Sim.secret))
     (events_of (Rev2.tpm2Unseal blobPublic blobPrivate [7] AlgSHA256
                   recorded (Some pw) "rsa" [] salt16) env [])).
  { vm_compute. tauto. }
  assert (H1 : In (EvUnsealWithSession 3 0x03000000 0x80000001 auth1
                     (Ok Sim.secret))
     (events_of (Rev1.tpm2Unseal blobPublic blobPrivate [7] AlgSHA1
                   recorded (Some pwFramed)) env [])).
  { vm_compute. tauto. }
  split; [exact H2|].
  split.
  - exact (proj2 (proj1 (auth_value_derivation blobPublic blobPrivate [7]
                           AlgSHA256 recorded (Some pw) "rsa" [] salt16 env []
                           3 0x03000000 0x80000001 auth2 (Ok Sim.secret))
                        H2)).
  - split; [exact H1|].
    exact (proj1 (proj2 (auth_value_derivation blobPublic blobPrivate [7]
                           AlgSHA1 recorded (Some pwFramed) "rsa" [] salt16
                           env [] 3 0x03000000 0x80000001 auth1
                           (Ok Sim.secret)) H1)).
Defined.

(** C3 (counterexample): with an absent (nil) password and everything else
    succeeding, revision 2 still calls [pbkdf2.Key] and presents the base64
    text of its 32 bytes, not an empty value. *)
Lemma absent_password_still_derives :
  let tr :=
    events_of (Rev2.tpm2Unseal blobPublic blobPrivate [7] AlgSHA256 recorded
                 None "rsa" [] salt16)
              (Sim.env false recorded Sim.NoFault) [] in
  existsb is_pbkdf2 tr = true /\
  presented_auth tr = ["q6urq6urq6urq6urq6urq6urq6urq6urq6urq6urq6s="] /\
  presented_auth tr <> [EmptyString] /\
  presented_auth tr <> [].
Proof. vm_compute. repeat split; discriminate. Qed.

(** C3 (amended): for every unseal attempt of revision 2 with an absent
    password that reaches the unseal command, the derivation is still
    performed, on the empty password and the given salt with 10000
    iterations and 32 bytes, and the base64 encoding of its output is
    presented; that value is empty only if the derivation returned no
    bytes. *)
Theorem absent_password_derivation
    (public private : bytes) (pcrs : list Z) (bank : Algorithm)
    (policyHash : bytes) (encryptAlg : string) (srk salt : bytes)
    (env : Env) (h : History)
    (dev : Conn) (sess obj : Handle) (auth : string) (r : result bytes)
    (Hreach :
       In (EvUnsealWithSession dev sess obj auth r)
          (events_of (Rev2.tpm2Unseal public private pcrs bank policyHash
                        None encryptAlg srk salt) env h)) :
  In (EvPbkdf2Key [] salt 10000 32 sha256_New
        (pbkdf2 env [] salt 10000 32 sha256_New))
     (events_of (Rev2.tpm2Unseal public private pcrs bank policyHash
                   None encryptAlg srk salt) env h) /\
  auth = base64_EncodeToString (pbkdf2 env [] salt 10000 32 sha256_New) /\
  (auth = EmptyString <-> pbkdf2 env [] salt 10000 32 sha256_New = []).
Proof.
  destruct (rev2_unseal_auth _ _ _ _ _ _ _ _ _ _ _ _ _ _ _ _ Hreach)
    as [Ha Hk].
  simpl slice_bytes in *.
  split; [|split].
  - apply (proj1 (filter_In is_pbkdf2 _ _)). rewrite Hk. left. reflexivity.
  - exact Ha.
  - rewrite Ha. apply base64_empty.
Qed.

Lemma absent_password_derivation_witness :
  let env := Sim.env false recorded Sim.NoFault in
  let auth := "q6urq6urq6urq6urq6urq6urq6urq6urq6urq6urq6s=" in
  In (EvUnsealWithSession 3 0x03000000 0x80000001 auth (Ok Sim.secret))
     (events_of (Rev2.tpm2Unseal blobPublic blobPrivate [] AlgSHA256
                   recorded None "rsa" [] salt16) env []) /\
  In (EvPbkdf2Key [] salt16 10000 32 sha256_New
        (pbkdf2 env [] salt16 10000 32 sha256_New))
     (events_of (Rev2.tpm2Unseal blobPublic blobPrivate [] AlgSHA256
                   recorded None "rsa" [] salt16) env []).
Proof.
  intros env auth.
  assert (H : In (EvUnsealWithSession 3 0x03000000 0x80000001 auth
                    (Ok Sim.secret))
     (events_of (Rev2.tpm2Unseal blobPublic blobPrivate [] AlgSHA256
                   recorded None "rsa" [] salt16) env [])).
  { vm_compute. tauto. }
  split; [exact H|].
  exact (proj1 (absent_password_derivation blobPublic blobPrivate []
                  AlgSHA256 recorded "rsa" [] salt16 env [] 3 0x03000000
                  0x80000001 auth (Ok Sim.secret) H)).
Defined.

(** C4: in either revision [policyPCRSession] has no way to succeed other
    than the byte-exact comparison, for every expected digest (the empty
    one included).  A digest read back decides the result: equal to the
    recorded digest byte for byte, the session handle and the digest are
    returned; on any difference, the PolicyMismatch error with the null
    handle and no digest.  A return without error implies that the digest
    was read back on the returned handle and equalled the expected digest;
    a return with an error never carries a session handle. *)
Theorem policy_digest_mismatch_is_hard_stop
    (session : Conn -> list Z -> Algorithm -> bytes -> bool ->
               M SessionResult)
    (Hrev : session = Rev1.policyPCRSession \/
            session = Rev2.policyPCRSession)
    (env : Env) (h : History) (dev : Conn) (pcrs : list Z) (algo : Algorithm)
    (expectedDigest : bytes) (usePassword : bool) :
  (forall (dev' : Conn) (sess : Handle) (policy : bytes),
     In (EvPolicyGetDigest dev' sess (Ok policy))
        (events_of (session dev pcrs algo expectedDigest usePassword) env h) ->
     value_of (session dev pcrs algo expectedDigest usePassword) env h =
       (if bytes_Equal policy expectedDigest
        then (sess, policy, None)
        else (HandleNull, [], Some PolicyMismatch))) /\
  (forall (handle : Handle) (policy : bytes),
     value_of (session dev pcrs algo expectedDigest usePassword) env h =
       (handle, policy, None) ->
     policy = expectedDigest /\
     In (EvPolicyGetDigest dev handle (Ok expectedDigest))
        (events_of (session dev pcrs algo expectedDigest usePassword)
                   env h)) /\
  (forall (handle : Handle) (policy : bytes) (err : error),
     value_of (session dev pcrs algo expectedDigest usePassword) env h =
       (handle, policy, Some err) ->
     handle = HandleNull /\ policy = []) /\
  (forall a b : bytes, bytes_Equal a b = true <-> a = b).
Proof.
  split; [|split; [|split; [|exact bytes_Equal_eq]]].
  - intros dev' sess policy.
    destruct Hrev; subst session; run_paths; intros Hread; pick_event;
      repeat match goal with
      | H : negb _ = true |- _ => apply negb_true_iff in H
      | H : negb _ = false |- _ => apply negb_false_iff in H
      end; first [reflexivity | congruence].
  - intros handle policy.
    destruct Hrev; subst session; run_paths; intros Hv;
      try discriminate Hv; injection Hv as <- <-; digest_test; subst;
      (split; [reflexivity | simpl; tauto]).
  - intros handle policy err.
    destruct Hrev; subst session; run_paths; intros Hv;
      try discriminate Hv; injection Hv as <- <- _; split; reflexivity.
Qed.

Lemma policy_digest_mismatch_is_hard_stop_witness :
  value_of (Rev2.policyPCRSession 3 [7] AlgSHA256 recorded true)
           (Sim.env false other Sim.NoFault) [] =
    (HandleNull, [], Some PolicyMismatch) /\
  value_of (Rev1.policyPCRSession 3 [7] AlgSHA256 recorded true)
           (Sim.env false recorded Sim.NoFault) [] =
    (0x03000000, recorded, None) /\
  In (EvPolicyGetDigest 3 0x03000000 (Ok []))
     (events_of (Rev2.policyPCRSession 3 [] AlgSHA256 [] false)
                (Sim.env false [] Sim.NoFault) []).
Proof.
  split; [|split].
  - refine (proj1 (policy_digest_mismatch_is_hard_stop
                     Rev2.policyPCRSession (or_intror eq_refl)
                     (Sim.env false other Sim.NoFault) [] 3 [7] AlgSHA256
                     recorded true) 3 0x03000000 other _).
    vm_compute. tauto.
  - refine (proj1 (policy_digest_mismatch_is_hard_stop
                     Rev1.policyPCRSession (or_introl eq_refl)
                     (Sim.env false recorded Sim.NoFault) [] 3 [7] AlgSHA256
                     recorded true) 3 0x03000000 recorded _).
    vm_compute. tauto.
  - refine (proj2 (proj1 (proj2 (policy_digest_mismatch_is_hard_stop
                     Rev2.policyPCRSession (or_intror eq_refl)
                     (Sim.env false [] Sim.NoFault) [] 3 [] AlgSHA256
                     [] false)) 0x03000000 [] _)).
    reflexivity.
Defined.



(** C6 (code defect): [tpm2Unseal] does not consult [encryptAlg].  Called
    with "ecc", the primary key is created from the RSA template although
    [getSRKTemplate "ecc"] is the ECC template; called with the unsupported
    "dsa", the attempt succeeds although [getSRKTemplate "dsa"] fails with
    UnsupportedAlgorithm. *)
Theorem encryptAlg_is_not_consulted :
  let run alg :=
    Rev2.tpm2Unseal blobPublic blobPrivate [7] AlgSHA256 recorded (Some pw)
      alg [] salt16 (Sim.env false recorded Sim.NoFault) [] in
  primary_templates (snd (run "ecc")) = [Rev2.srkTemplate] /\
  Type_ Rev2.srkTemplate = AlgRSA /\
  Type_ (fst (Rev2.getSRKTemplate "ecc")) = AlgECC /\
  Z.eqb AlgRSA AlgECC = false /\
  fst (run "dsa") = Ok Sim.secret /\
  primary_templates (snd (run "dsa")) = [Rev2.srkTemplate] /\
  snd (Rev2.getSRKTemplate "dsa") = Some UnsupportedAlgorithm.
Proof. vm_compute. repeat split. Qed.

(** C7: in revision 2, for every unseal attempt with a non-empty PCR
    selection in which the digest read back differs from the recorded one,
    the PCR predicate was asserted, the attempt returns PolicyMismatch, and
    its trace contains no PBKDF2 derivation and no unseal command (nor a
    primary-key creation). *)
Theorem mismatch_precedes_derivation
    (public private : bytes) (pcrs : list Z) (bank : Algorithm)
    (policyHash : bytes) (password : option bytes) (encryptAlg : string)
    (srk salt : bytes) (env : Env) (h : History)
    (dev : Conn) (sess : Handle) (policy : bytes)
    (Hsel : pcrs <> [])
    (Hread : In (EvPolicyGetDigest dev sess (Ok policy))
                (events_of (Rev2.tpm2Unseal public private pcrs bank
                              policyHash password encryptAlg srk salt)
                           env h))
    (Hdiff : policy <> policyHash) :
  value_of (Rev2.tpm2Unseal public private pcrs bank policyHash password
              encryptAlg srk salt) env h = Err PolicyMismatch /\
  existsb is_policyPCR
    (events_of (Rev2.tpm2Unseal public private pcrs bank policyHash password
                  encryptAlg srk salt) env h) = true /\
  existsb is_pbkdf2
    (events_of (Rev2.tpm2Unseal public private pcrs bank policyHash password
                  encryptAlg srk salt) env h) = false /\
  existsb is_unseal
    (events_of (Rev2.tpm2Unseal public private pcrs bank policyHash password
                  encryptAlg srk salt) env h) = false /\
  existsb is_createPrimary
    (events_of (Rev2.tpm2Unseal public private pcrs bank policyHash password
                  encryptAlg srk salt) env h) = false.
Proof.
  destruct (rev2_mismatch_stops public private pcrs bank policyHash password
              encryptAlg srk salt env h dev sess policy Hread Hdiff)
    as (Hv & Hk & Hu & Hc).
  repeat split; try assumption.
  destruct pcrs as [|p ps]; [contradiction|].
  clear Hv Hk Hu Hc. revert Hread.
  unfold_go. unfold len. cbn [List.length].
  replace (Z.of_nat (S (List.length ps)) >? 0) with true by
    (symmetry; apply Z.gtb_lt; lia).
  cbn. repeat (split_scrutinee; cbn in *); intros Hread; pick_event;
    reflexivity.
Qed.

Lemma mismatch_precedes_derivation_witness :
  let attempt :=
    Rev2.tpm2Unseal blobPublic blobPrivate [7] AlgSHA256 recorded (Some pw)
      "rsa" [] salt16 in
  let env := Sim.env false other Sim.NoFault in
  ([7] <> ([] : list Z)) /\
  In (EvPolicyGetDigest 3 0x03000000 (Ok other)) (events_of attempt env []) /\
  other <> recorded /\
  value_of attempt env [] = Err PolicyMismatch /\
  existsb is_pbkdf2 (events_of attempt env []) = false.
Proof.
  intros attempt env.
  assert (Hsel : [7] <> ([] : list Z)) by discriminate.
  assert (Hread : In (EvPolicyGetDigest 3 0x03000000 (Ok other))
                     (events_of attempt env [])).
  { vm_compute. tauto. }
  assert (Hdiff : other <> recorded) by discriminate.
  pose proof (mismatch_precedes_derivation blobPublic blobPrivate [7]
                AlgSHA256 recorded (Some pw) "rsa" [] salt16 env [] 3
                0x03000000 other Hsel Hread Hdiff) as T.
  repeat split; try assumption; apply T.
Defined.

(** C8: in both revisions [parsePCRBank] returns the SHA-1 identifier for
    "sha1" and the SHA-256 identifier for every other string, "sha256" and
    the empty string included; it never fails. *)
Theorem parsePCRBank_defaults_to_sha256 (bank : string) :
  Rev1.parsePCRBank bank = Rev2.parsePCRBank bank /\
  Rev2.parsePCRBank bank =
    (if String.eqb bank "sha1" then AlgSHA1 else AlgSHA256) /\
  Rev2.parsePCRBank "sha1" = AlgSHA1 /\
  Rev2.parsePCRBank "sha256" = AlgSHA256 /\
  Rev2.parsePCRBank "" = AlgSHA256 /\
  Z.eqb AlgSHA1 AlgSHA256 = false.
Proof.
  repeat split; try reflexivity.
  unfold Rev2.parsePCRBank.
  destruct (String.eqb bank "sha1"); [reflexivity|].
  destruct (String.eqb bank "sha256"); reflexivity.
Qed.

(** C9: two calls of revision 2's [tpm2Unseal] that differ only in [srk]
    and [encryptAlg] return the same result and issue the same events, for
    every device and every history. *)
Theorem tpm2Unseal_ignores_srk_and_encryptAlg
    (public private : bytes) (pcrs : list Z) (bank : Algorithm)
    (policyHash : bytes) (password : option bytes) (salt : bytes)
    (encryptAlg1 encryptAlg2 : string) (srk1 srk2 : bytes)
    (env : Env) (h : History) :
  value_of (Rev2.tpm2Unseal public private pcrs bank policyHash password
              encryptAlg1 srk1 salt) env h =
  value_of (Rev2.tpm2Unseal public private pcrs bank policyHash password
              encryptAlg2 srk2 salt) env h /\
  events_of (Rev2.tpm2Unseal public private pcrs bank policyHash password
               encryptAlg1 srk1 salt) env h =
  events_of (Rev2.tpm2Unseal public private pcrs bank policyHash password
               encryptAlg2 srk2 salt) env h.
Proof. split; reflexivity. Qed.

(** C10: in both revisions, when the channel was opened and the
    manufacturer query on it failed, [openTPM] returns the "not a TPM 2.0"
    error having issued the open and the query only: no close is issued and
    the channel is still open. *)
Theorem openTPM_identity_failure_leaves_channel_open
    (env : Env) (h : History) (dev : Conn) (e : error)
    (Hquery : In (EvGetManufacturer dev (Err e))
                 (events_of Rev2.openTPM env h)) :
  Rev1.openTPM = Rev2.openTPM /\
  value_of Rev2.openTPM env h = Err NotAModule /\
  (events_of Rev2.openTPM env h =
     [EvDial "tcp" ":2321" (Ok dev); EvGetManufacturer dev (Err e)] \/
   events_of Rev2.openTPM env h =
     [EvOpenTPM "/dev/tpmrm0" (Ok dev); EvGetManufacturer dev (Err e)]) /\
  existsb is_close (events_of Rev2.openTPM env h) = false /\
  open_channels (events_of Rev2.openTPM env h) = [dev].
Proof.
  split; [reflexivity|].
  revert Hquery. run_paths; intros Hquery; pick_event; auto 6.
Qed.

Lemma openTPM_identity_failure_leaves_channel_open_witness :
  let env := Sim.env true [] Sim.FailManufacturer in
  In (EvGetManufacturer 7 (Err "bad tag")) (events_of Rev2.openTPM env []) /\
  value_of Rev2.openTPM env [] = Err NotAModule /\
  open_channels (events_of Rev2.openTPM env []) = [7].
Proof.
  intros env.
  assert (H : In (EvGetManufacturer 7 (Err "bad tag"))
                 (events_of Rev2.openTPM env [])).
  { vm_compute. tauto. }
  pose proof (openTPM_identity_failure_leaves_channel_open env [] 7
                "bad tag" H) as T.
  split; [exact H|]. split; apply T.
Defined.

(** * Further properties of the code *)

(** Every path of a program whose facts all sit in the goal. *)
Ltac split_goal :=
  match goal with
  | |- context [match ?x with _ => _ end] =>
      lazymatch x with
      | context [match _ with _ => _ end] => fail
      | _ => destruct x eqn:?
      end
  end.

Ltac run_goal := unfold_go; cbn; repeat (split_goal; cbn).

(** Every path of a program, with the observation [f] kept folded until the
    path is known. *)
Ltac run_goal_keeping f :=
  unfold_go; cbn -[f]; repeat (split_goal; cbn -[f]).

(** Every path of the program the goal speaks about, run once: the goal is
    then stated on the value and the events of that path. *)
Ltac run_once :=
  unfold value_of, events_of;
  match goal with
  | |- context [snd ?p] =>
      let v := fresh "v" in
      let tr := fresh "tr" in
      let E := fresh "E" in
      destruct p as [v tr] eqn:E; cbn [fst snd]; revert E
  end;
  unfold_go; cbn; repeat (split_goal; cbn);
  let E := fresh "E" in
  intros E; injection E as <- <-.

(** ** The transport *)

(** [openTPM] tries exactly one transport, the emulator's TCP endpoint when
    [enableSwEmulator] is set and the device path otherwise.  An error of
    the open is returned unchanged and nothing else is issued; a channel is
    returned only after it answered the manufacturer query. *)
Theorem openTPM_one_transport (env : Env) (h : History) :
  Rev1.openTPM = Rev2.openTPM /\
  exists r : result Conn,
    match r with
    | Err e =>
        events_of Rev2.openTPM env h = [open_event env r] /\
        value_of Rev2.openTPM env h = Err e
    | Ok dev =>
        exists m : result bytes,
          events_of Rev2.openTPM env h =
            [open_event env r; EvGetManufacturer dev m] /\
          value_of Rev2.openTPM env h =
            match m with
            | Ok _ => Ok dev
            | Err _ => Err NotAModule
            end
    end.
Proof.
  split; [reflexivity|].
  unfold open_event. run_goal;
    match goal with
    | H : _ = Ok ?c, G : _ = ?m |- _ =>
        exists (Ok c); cbn; exists m; split; reflexivity
    | H : _ = Err ?e |- _ => exists (Err e); cbn; split; reflexivity
    end.
Qed.

(** When [openTPM] fails, [tpm2Unseal] returns its error having issued
    nothing more: in particular the channel that failed the manufacturer
    query is not closed by [tpm2Unseal] either. *)
Theorem tpm2Unseal_stops_when_open_fails
    (public private : bytes) (pcrs : list Z) (bank : Algorithm)
    (policyHash : bytes) (password : option bytes) (encryptAlg : string)
    (srk salt : bytes) (env : Env) (h : History) (e : error)
    (Hopen : value_of Rev2.openTPM env h = Err e) :
  (value_of (Rev2.tpm2Unseal public private pcrs bank policyHash password
               encryptAlg srk salt) env h = Err e /\
   events_of (Rev2.tpm2Unseal public private pcrs bank policyHash password
                encryptAlg srk salt) env h = events_of Rev2.openTPM env h) /\
  (value_of (Rev1.tpm2Unseal public private pcrs bank policyHash password)
     env h = Err e /\
   events_of (Rev1.tpm2Unseal public private pcrs bank policyHash password)
     env h = events_of Rev1.openTPM env h) /\
  existsb is_close
    (events_of (Rev2.tpm2Unseal public private pcrs bank policyHash password
                  encryptAlg srk salt) env h) = false.
Proof.
  revert Hopen.
  unfold_go; cbn.
  destruct (enableSwEmulator env); cbn;
    repeat match goal with
    | |- context [match ?x with _ => _ end] =>
        lazymatch x with
        | context [match _ with _ => _ end] => fail
        | dial _ _ _ _ => destruct x eqn:?; cbn
        | openDevice _ _ _ => destruct x eqn:?; cbn
        | getManufacturer _ _ _ => destruct x eqn:?; cbn
        end
    end;
    intros Hopen; try discriminate Hopen;
    injection Hopen as <-; repeat split; reflexivity.
Qed.

Lemma tpm2Unseal_stops_when_open_fails_witness :
  let env := Sim.env false recorded Sim.FailManufacturer in
  value_of Rev2.openTPM env [] = Err NotAModule /\
  events_of (Rev2.tpm2Unseal blobPublic blobPrivate [7] AlgSHA256 recorded
               (Some pw) "rsa" [] salt16) env [] =
    [EvOpenTPM "/dev/tpmrm0" (Ok 3); EvGetManufacturer 3 (Err "bad tag")].
Proof.
  intros env.
  assert (H : value_of Rev2.openTPM env [] = Err NotAModule) by reflexivity.
  split; [exact H|].
  exact (proj2 (proj1 (tpm2Unseal_stops_when_open_fails blobPublic
                         blobPrivate [7] AlgSHA256 recorded (Some pw) "rsa"
                         [] salt16 env [] NotAModule H))).
Defined.

(** ** Release and closing *)

(** Once [openTPM] has returned a channel, [tpm2Unseal] closes it exactly
    once, as its last event, on every exit path; when the device
    acknowledges the close no channel of the attempt stays open. *)
Theorem tpm2Unseal_closes_channel_last
    (public private : bytes) (pcrs : list Z) (bank : Algorithm)
    (policyHash : bytes) (password : option bytes) (encryptAlg : string)
    (srk salt : bytes) (env : Env) (h : History) (dev : Conn)
    (Hopen : value_of Rev2.openTPM env h = Ok dev) :
  (exists r : result unit,
     events_of (Rev2.tpm2Unseal public private pcrs bank policyHash password
                  encryptAlg srk salt) env h =
       removelast
         (events_of (Rev2.tpm2Unseal public private pcrs bank policyHash
                       password encryptAlg srk salt) env h)
       ++ [EvClose dev r] /\
     count is_close
       (events_of (Rev2.tpm2Unseal public private pcrs bank policyHash
                     password encryptAlg srk salt) env h) = 1%nat /\
     open_channels
       (events_of (Rev2.tpm2Unseal public private pcrs bank policyHash
                     password encryptAlg srk salt) env h) =
       match r with Ok _ => [] | Err _ => [dev] end) /\
  (exists r : result unit,
     events_of (Rev1.tpm2Unseal public private pcrs bank policyHash password)
       env h =
       removelast
         (events_of (Rev1.tpm2Unseal public private pcrs bank policyHash
                       password) env h)
       ++ [EvClose dev r] /\
     count is_close
       (events_of (Rev1.tpm2Unseal public private pcrs bank policyHash
                     password) env h) = 1%nat /\
     open_channels
       (events_of (Rev1.tpm2Unseal public private pcrs bank policyHash
                     password) env h) =
       match r with Ok _ => [] | Err _ => [dev] end).
Proof.
  unfold count, open_channels.
  split; revert Hopen; run_goal; intros Hopen; try discriminate Hopen;
    injection Hopen as ->; same_handle; eexists; cbn;
    (split; [reflexivity|]); (split; [reflexivity|]);
    rewrite ?Z.eqb_refl; reflexivity.
Qed.

Lemma tpm2Unseal_closes_channel_last_witness :
  let env := Sim.env true other Sim.NoFault in
  value_of Rev2.openTPM env [] = Ok 7 /\
  count is_close
    (events_of (Rev2.tpm2Unseal blobPublic blobPrivate [7] AlgSHA256 recorded
                  (Some pw) "rsa" [] salt16) env []) = 1%nat /\
  count is_close
    (events_of (Rev1.tpm2Unseal blobPublic blobPrivate [7] AlgSHA256 recorded
                  (Some pwFramed)) env []) = 1%nat.
Proof.
  intros env.
  assert (H : value_of Rev2.openTPM env [] = Ok 7) by reflexivity.
  split; [exact H|].
  destruct (tpm2Unseal_closes_channel_last blobPublic blobPrivate [7]
              AlgSHA256 recorded (Some pw) "rsa" [] salt16 env [] 7 H)
    as [[r2 [_ [H2 _]]] _].
  destruct (tpm2Unseal_closes_channel_last blobPublic blobPrivate [7]
              AlgSHA256 recorded (Some pwFramed) "rsa" [] salt16 env [] 7 H)
    as [_ [r1 [_ [H1 _]]]].
  split; assumption.
Defined.

(** Every device command of an attempt is sent on the channel [openTPM]
    returned. *)
Theorem tpm2Unseal_uses_one_channel
    (public private : bytes) (pcrs : list Z) (bank : Algorithm)
    (policyHash : bytes) (password : option bytes) (encryptAlg : string)
    (srk salt : bytes) (env : Env) (h : History) (dev : Conn)
    (Hopen : value_of Rev2.openTPM env h = Ok dev) :
  forallb (on_channel dev)
    (events_of (Rev2.tpm2Unseal public private pcrs bank policyHash password
                  encryptAlg srk salt) env h) = true /\
  forallb (on_channel dev)
    (events_of (Rev1.tpm2Unseal public private pcrs bank policyHash password)
       env h) = true.
Proof.
  unfold on_channel.
  split; revert Hopen; run_goal; intros Hopen; try discriminate Hopen;
    injection Hopen as ->; same_handle; rewrite ?Z.eqb_refl; reflexivity.
Qed.

Lemma tpm2Unseal_uses_one_channel_witness :
  let env := Sim.env false recorded Sim.NoFault in
  value_of Rev2.openTPM env [] = Ok 3 /\
  forallb (on_channel 3)
    (events_of (Rev2.tpm2Unseal blobPublic blobPrivate [7] AlgSHA256 recorded
                  (Some pw) "rsa" [] salt16) env []) = true.
Proof.
  intros env.
  assert (H : value_of Rev2.openTPM env [] = Ok 3) by reflexivity.
  split; [exact H|].
  exact (proj1 (tpm2Unseal_uses_one_channel blobPublic blobPrivate [7]
                  AlgSHA256 recorded (Some pw) "rsa" [] salt16 env [] 3 H)).
Defined.

(** Handles are flushed in the reverse order of their creation: once the
    session build has succeeded (the primary-key creation was issued),
    [FlushContext] is called exactly on the handles the attempt created,
    last created first; before that it is not called at all. *)
Theorem tpm2Unseal_flushes_in_reverse_order
    (public private : bytes) (pcrs : list Z) (bank : Algorithm)
    (policyHash : bytes) (password : option bytes) (encryptAlg : string)
    (srk salt : bytes) (env : Env) (h : History) :
  flushed
    (events_of (Rev2.tpm2Unseal public private pcrs bank policyHash password
                  encryptAlg srk salt) env h) =
    (if existsb is_createPrimary
          (events_of (Rev2.tpm2Unseal public private pcrs bank policyHash
                        password encryptAlg srk salt) env h)
     then rev (created
                 (events_of (Rev2.tpm2Unseal public private pcrs bank
                               policyHash password encryptAlg srk salt)
                            env h))
     else []) /\
  flushed
    (events_of (Rev1.tpm2Unseal public private pcrs bank policyHash password)
       env h) =
    (if existsb is_createPrimary
          (events_of (Rev1.tpm2Unseal public private pcrs bank policyHash
                        password) env h)
     then rev (created
                 (events_of (Rev1.tpm2Unseal public private pcrs bank
                               policyHash password) env h))
     else []).
Proof.
  split; run_goal; reflexivity.
Qed.

(** No handle is used after its release and nothing is sent after the
    close: in every attempt, the first flush is followed only by flushes
    and the close of the channel, and the close is the last event. *)
Theorem tpm2Unseal_release_phase_is_final
    (public private : bytes) (pcrs : list Z) (bank : Algorithm)
    (policyHash : bytes) (password : option bytes) (encryptAlg : string)
    (srk salt : bytes) (env : Env) (h : History) :
  cleanup_is_final
    (events_of (Rev2.tpm2Unseal public private pcrs bank policyHash password
                  encryptAlg srk salt) env h) = true /\
  cleanup_is_final
    (events_of (Rev1.tpm2Unseal public private pcrs bank policyHash password)
       env h) = true.
Proof.
  split; run_goal; reflexivity.
Qed.

(** Nothing is retried: an attempt issues each command of the pipeline
    (manufacturer query, session start, each policy step, key creation,
    load, hash or derivation, unseal, close) at most once, and at most
    three flushes. *)
Theorem tpm2Unseal_never_retries
    (public private : bytes) (pcrs : list Z) (bank : Algorithm)
    (policyHash : bytes) (password : option bytes) (encryptAlg : string)
    (srk salt : bytes) (env : Env) (h : History) :
  no_retry
    (events_of (Rev2.tpm2Unseal public private pcrs bank policyHash password
                  encryptAlg srk salt) env h) = true /\
  no_retry
    (events_of (Rev1.tpm2Unseal public private pcrs bank policyHash password)
       env h) = true.
Proof.
  split; run_goal_keeping no_retry; reflexivity.
Qed.

(** ** The pipeline *)

(** The unseal command is guarded: whenever it is issued, the digest read
    back on that very session equals the recorded digest, the object was
    loaded from the caller's blobs under the primary key created in this
    attempt, and all of it happened on the same channel. *)
Theorem unseal_only_after_verified_digest
    (public private : bytes) (pcrs : list Z) (bank : Algorithm)
    (policyHash : bytes) (password : option bytes) (encryptAlg : string)
    (srk salt : bytes) (env : Env) (h : History)
    (dev : Conn) (sess obj : Handle) (auth : string) (r : result bytes) :
  (In (EvUnsealWithSession dev sess obj auth r)
      (events_of (Rev2.tpm2Unseal public private pcrs bank policyHash
                    password encryptAlg srk salt) env h) ->
   In (EvPolicyGetDigest dev sess (Ok policyHash))
      (events_of (Rev2.tpm2Unseal public private pcrs bank policyHash
                    password encryptAlg srk salt) env h) /\
   exists key : Handle,
     In (EvCreatePrimary dev HandleOwner PCRSelection_zero EmptyString
           EmptyString Rev2.srkTemplate (Ok key))
        (events_of (Rev2.tpm2Unseal public private pcrs bank policyHash
                      password encryptAlg srk salt) env h) /\
     In (EvLoad dev key EmptyString public private (Ok obj))
        (events_of (Rev2.tpm2Unseal public private pcrs bank policyHash
                      password encryptAlg srk salt) env h)) /\
  (In (EvUnsealWithSession dev sess obj auth r)
      (events_of (Rev1.tpm2Unseal public private pcrs bank policyHash
                    password) env h) ->
   In (EvPolicyGetDigest dev sess (Ok policyHash))
      (events_of (Rev1.tpm2Unseal public private pcrs bank policyHash
                    password) env h) /\
   exists key : Handle,
     In (EvCreatePrimary dev HandleOwner PCRSelection_zero EmptyString
           EmptyString Rev1.srkTemplate (Ok key))
        (events_of (Rev1.tpm2Unseal public private pcrs bank policyHash
                      password) env h) /\
     In (EvLoad dev key EmptyString public private (Ok obj))
        (events_of (Rev1.tpm2Unseal public private pcrs bank policyHash
                      password) env h)).
Proof.
  split; run_once; intros Hin; simpl in Hin; pick_event; digest_test;
    subst; (split; [simpl; tauto|]); eexists; split; simpl; tauto.
Qed.

Lemma unseal_only_after_verified_digest_witness :
  let env := Sim.env false recorded Sim.NoFault in
  In (EvPolicyGetDigest 3 0x03000000 (Ok recorded))
     (events_of (Rev2.tpm2Unseal blobPublic blobPrivate [7] AlgSHA256
                   recorded (Some pw) "rsa" [] salt16) env []) /\
  In (EvPolicyGetDigest 3 0x03000000 (Ok recorded))
     (events_of (Rev1.tpm2Unseal blobPublic blobPrivate [7] AlgSHA1
                   recorded (Some pwFramed)) env []).
Proof.
  intros env.
  split.
  - refine (proj1 (proj1 (unseal_only_after_verified_digest blobPublic
              blobPrivate [7] AlgSHA256 recorded (Some pw) "rsa" [] salt16
              env [] 3 0x03000000 0x80000001
              "q6urq6urq6urq6urq6urq6urq6urq6urq6urq6urq6s=" (Ok Sim.secret))
              _)).
    vm_compute. tauto.
  - refine (proj1 (proj2 (unseal_only_after_verified_digest blobPublic
              blobPrivate [7] AlgSHA1 recorded (Some pwFramed) "rsa" []
              salt16 env [] 3 0x03000000 0x80000001 "AAAAAAAAAAAAAAAAAAAA"
              (Ok Sim.secret)) _)).
    vm_compute. tauto.
Defined.

(** An attempt returns a secret exactly when the device's unseal command
    returned that secret, byte for byte, whatever the deferred flushes and
    the close answered; and the console is written exactly when the
    attempt succeeds, with the one message of the success. *)
Theorem tpm2Unseal_returns_what_the_device_unsealed
    (public private : bytes) (pcrs : list Z) (bank : Algorithm)
    (policyHash : bytes) (password : option bytes) (encryptAlg : string)
    (srk salt : bytes) (env : Env) (h : History) (secret : bytes)
    (msg : string) :
  ((value_of (Rev2.tpm2Unseal public private pcrs bank policyHash password
                encryptAlg srk salt) env h = Ok secret <->
    exists dev sess obj auth,
      In (EvUnsealWithSession dev sess obj auth (Ok secret))
         (events_of (Rev2.tpm2Unseal public private pcrs bank policyHash
                       password encryptAlg srk salt) env h)) /\
   (In (EvConsole msg)
       (events_of (Rev2.tpm2Unseal public private pcrs bank policyHash
                     password encryptAlg srk salt) env h) <->
    msg = "Recovered unsealed data from tpm" /\
    exists s,
      value_of (Rev2.tpm2Unseal public private pcrs bank policyHash password
                  encryptAlg srk salt) env h = Ok s)) /\
  ((value_of (Rev1.tpm2Unseal public private pcrs bank policyHash password)
      env h = Ok secret <->
    exists dev sess obj auth,
      In (EvUnsealWithSession dev sess obj auth (Ok secret))
         (events_of (Rev1.tpm2Unseal public private pcrs bank policyHash
                       password) env h)) /\
   (In (EvConsole msg)
       (events_of (Rev1.tpm2Unseal public private pcrs bank policyHash
                     password) env h) <->
    msg = "Recovered unsealed data from tpm" /\
    exists s,
      value_of (Rev1.tpm2Unseal public private pcrs bank policyHash password)
        env h = Ok s)).
Proof.
  split; run_once;
    (split;
     [ split;
       [ intros Hv; try discriminate Hv; injection Hv as ->;
         do 4 eexists; simpl; tauto
       | intros (dev & sess & obj & auth & Hin); simpl in Hin;
         pick_event; reflexivity ]
     | split;
       [ intros Hin; simpl in Hin; pick_event;
         (split; [reflexivity | eexists; reflexivity])
       | intros [-> [s Hv]]; try discriminate Hv; simpl; tauto ] ]).
Qed.

Lemma tpm2Unseal_returns_what_the_device_unsealed_witness :
  value_of (Rev2.tpm2Unseal blobPublic blobPrivate [7] AlgSHA256 recorded
              (Some pw) "rsa" [] salt16)
           (Sim.env false recorded Sim.NoFault) [] = Ok Sim.secret /\
  ~ In (EvConsole "Recovered unsealed data from tpm")
       (events_of (Rev1.tpm2Unseal blobPublic blobPrivate [7] AlgSHA256
                     recorded (Some pwFramed))
                  (Sim.env false recorded Sim.FailLoad) []).
Proof.
  split.
  - apply (proj2 (proj1 (proj1 (tpm2Unseal_returns_what_the_device_unsealed
                           blobPublic blobPrivate [7] AlgSHA256 recorded
                           (Some pw) "rsa" [] salt16
                           (Sim.env false recorded Sim.NoFault) []
                           Sim.secret EmptyString)))).
    exists 3, 0x03000000, 0x80000001,
      "q6urq6urq6urq6urq6urq6urq6urq6urq6urq6urq6s=".
    vm_compute. tauto.
  - intros Hc.
    apply (proj1 (proj2 (proj2 (tpm2Unseal_returns_what_the_device_unsealed
                           blobPublic blobPrivate [7] AlgSHA256 recorded
                           (Some pwFramed) "rsa" [] salt16
                           (Sim.env false recorded Sim.FailLoad) []
                           Sim.secret
                           "Recovered unsealed data from tpm")))) in Hc.
    destruct Hc as [_ [s Hs]]. discriminate Hs.
Defined.

(** ** The session build *)

(** The predicates are asserted in a fixed order, PCR before password
    before the digest read, each at most once: the steps of every session
    build are an initial part of that sequence (the build stops at the
    first step that fails), and the whole of it whenever the digest was
    read. *)
Theorem policy_steps_in_order
    (env : Env) (h : History) (dev : Conn) (pcrs : list Z) (algo : Algorithm)
    (expectedDigest : bytes) (usePassword : bool) :
  let steps2 :=
    policy_steps (events_of (Rev2.policyPCRSession dev pcrs algo
                               expectedDigest usePassword) env h) in
  let steps1 :=
    policy_steps (events_of (Rev1.policyPCRSession dev pcrs algo
                               expectedDigest usePassword) env h) in
  (steps2 = firstn (List.length steps2) (session_steps2 pcrs usePassword) /\
   (existsb is_getDigest
      (events_of (Rev2.policyPCRSession dev pcrs algo expectedDigest
                    usePassword) env h) = true ->
    steps2 = session_steps2 pcrs usePassword)) /\
  (steps1 = firstn (List.length steps1) (session_steps1 usePassword) /\
   (existsb is_getDigest
      (events_of (Rev1.policyPCRSession dev pcrs algo expectedDigest
                    usePassword) env h) = true ->
    steps1 = session_steps1 usePassword)).
Proof.
  cbv zeta. unfold session_steps1, session_steps2.
  split; run_once; (split; [reflexivity|]); intros Hd;
    first [discriminate Hd | reflexivity].
Qed.

Lemma policy_steps_in_order_witness :
  let env := Sim.env false recorded Sim.NoFault in
  policy_steps (events_of (Rev2.policyPCRSession 3 [] AlgSHA256 recorded true)
                          env []) = [StepStart; StepPassword; StepDigest] /\
  policy_steps (events_of (Rev1.policyPCRSession 3 [] AlgSHA256 recorded true)
                          env []) =
    [StepStart; StepPCR; StepPassword; StepDigest].
Proof.
  intros env.
  pose proof (policy_steps_in_order env [] 3 [] AlgSHA256 recorded true)
    as [[_ H2] [_ H1]].
  split; [apply H2 | apply H1]; reflexivity.
Defined.

(** What [policyPCRSession] returns is all or nothing: without an error the
    handle is the one [StartAuthSession] handed out and the digest returned
    equals the expected digest; with an error the handle is the null handle
    and no digest is returned. *)
Theorem policyPCRSession_all_or_nothing
    (session : Conn -> list Z -> Algorithm -> bytes -> bool ->
               M SessionResult)
    (Hrev : session = Rev1.policyPCRSession \/
            session = Rev2.policyPCRSession)
    (env : Env) (h : History) (dev : Conn) (pcrs : list Z) (algo : Algorithm)
    (expectedDigest : bytes) (usePassword : bool) :
  match value_of (session dev pcrs algo expectedDigest usePassword) env h with
  | (handle, policy, None) =>
      policy = expectedDigest /\
      created (events_of (session dev pcrs algo expectedDigest usePassword)
                         env h) = [handle] /\
      In (EvPolicyGetDigest dev handle (Ok expectedDigest))
         (events_of (session dev pcrs algo expectedDigest usePassword) env h)
  | (handle, policy, Some _) => handle = HandleNull /\ policy = []
  end.
Proof.
  destruct Hrev; subst session; run_goal; digest_test; subst;
    repeat split; first [reflexivity | simpl; tauto].
Qed.

Lemma policyPCRSession_all_or_nothing_witness :
  let env := Sim.env false recorded Sim.NoFault in
  created (events_of (Rev2.policyPCRSession 3 [7] AlgSHA256 recorded true)
                     env []) = [0x03000000] /\
  fst (fst (value_of (Rev1.policyPCRSession 3 [7] AlgSHA256 other true)
                     env [])) = HandleNull.
Proof.
  intros env. split.
  - exact (proj1 (proj2 (policyPCRSession_all_or_nothing
                           Rev2.policyPCRSession (or_intror eq_refl) env []
                           3 [7] AlgSHA256 recorded true))).
  - exact (proj1 (policyPCRSession_all_or_nothing
                    Rev1.policyPCRSession (or_introl eq_refl) env []
                    3 [7] AlgSHA256 other true)).
Defined.

(** The password predicate follows [password != nil], not the length of
    the password: in an attempt that reads the digest, [PolicyPassword] is
    asserted exactly when the password slice is non-nil, an empty non-nil
    password included. *)
Theorem password_predicate_follows_nil_test
    (public private : bytes) (pcrs : list Z) (bank : Algorithm)
    (policyHash : bytes) (password : option bytes) (encryptAlg : string)
    (srk salt : bytes) (env : Env) (h : History) :
  (existsb is_getDigest
     (events_of (Rev2.tpm2Unseal public private pcrs bank policyHash password
                   encryptAlg srk salt) env h) = true ->
   existsb is_policyPassword
     (events_of (Rev2.tpm2Unseal public private pcrs bank policyHash password
                   encryptAlg srk salt) env h) =
     match password with Some _ => true | None => false end) /\
  (existsb is_getDigest
     (events_of (Rev1.tpm2Unseal public private pcrs bank policyHash password)
        env h) = true ->
   existsb is_policyPassword
     (events_of (Rev1.tpm2Unseal public private pcrs bank policyHash password)
        env h) =
     match password with Some _ => true | None => false end).
Proof.
  split; destruct password as [p|]; run_once; intros Hd;
    first [discriminate Hd | reflexivity].
Qed.

Lemma password_predicate_follows_nil_test_witness :
  let env := Sim.env false recorded Sim.NoFault in
  existsb is_policyPassword
    (events_of (Rev2.tpm2Unseal blobPublic blobPrivate [7] AlgSHA256 recorded
                  (Some []) "rsa" [] salt16) env []) = true /\
  existsb is_policyPassword
    (events_of (Rev1.tpm2Unseal blobPublic blobPrivate [7] AlgSHA256 recorded
                  None) env []) = false.
Proof.
  intros env. split.
  - refine (proj1 (password_predicate_follows_nil_test blobPublic blobPrivate
                     [7] AlgSHA256 recorded (Some []) "rsa" [] salt16 env [])
                  _).
    reflexivity.
  - refine (proj2 (password_predicate_follows_nil_test blobPublic blobPrivate
                     [7] AlgSHA256 recorded None "rsa" [] salt16 env []) _).
    reflexivity.
Defined.

(** ** The authorization value *)

(** Three bytes become four characters, a last group of one or two bytes
    is padded to four. *)
Lemma base64_length (src : bytes) :
  String.length (base64_EncodeToString src) =
    (4 * ((List.length src + 2) / 3))%nat.
Proof.
  assert (H : forall n (s : bytes), (List.length s <= n)%nat ->
            String.length (base64_EncodeToString s) =
              (4 * ((List.length s + 2) / 3))%nat).
  { induction n as [|n IH]; intros s Hs.
    - destruct s; [reflexivity | simpl in Hs; lia].
    - destruct s as [|a [|b [|c rest]]]; try reflexivity.
      cbn [base64_EncodeToString]; cbv zeta; cbn [String.length List.length].
      rewrite IH by (simpl in Hs; lia).
      replace (S (S (S (List.length rest))) + 2)%nat
        with (1 * 3 + (List.length rest + 2))%nat by lia.
      rewrite Nat.div_add_l by discriminate. lia. }
  apply (H (List.length src)). lia.
Qed.

(** In revision 2 the value presented to the unseal command has 44
    characters whenever the derivation returned the 32 bytes it was asked
    for. *)
Theorem presented_auth_has_44_characters
    (public private : bytes) (pcrs : list Z) (bank : Algorithm)
    (policyHash : bytes) (password : option bytes) (encryptAlg : string)
    (srk salt : bytes) (env : Env) (h : History)
    (dev : Conn) (sess obj : Handle) (auth : string) (r : result bytes)
    (Hreach :
       In (EvUnsealWithSession dev sess obj auth r)
          (events_of (Rev2.tpm2Unseal public private pcrs bank policyHash
                        password encryptAlg srk salt) env h))
    (Hlen : List.length
              (pbkdf2 env (slice_bytes password) salt 10000 32 sha256_New) =
            32%nat) :
  String.length auth = 44%nat.
Proof.
  destruct (rev2_unseal_auth _ _ _ _ _ _ _ _ _ _ _ _ _ _ _ _ Hreach)
    as [-> _].
  rewrite base64_length, Hlen. reflexivity.
Qed.

Lemma presented_auth_has_44_characters_witness :
  String.length "q6urq6urq6urq6urq6urq6urq6urq6urq6urq6urq6s=" = 44%nat.
Proof.
  refine (presented_auth_has_44_characters blobPublic blobPrivate [7]
            AlgSHA256 recorded (Some pw) "rsa" [] salt16
            (Sim.env false recorded Sim.NoFault) [] 3 0x03000000 0x80000001
            "q6urq6urq6urq6urq6urq6urq6urq6urq6urq6urq6s=" (Ok Sim.secret)
            _ _).
  - vm_compute. tauto.
  - reflexivity.
Defined.

(** In revision 1 a password the [U16Bytes] decoder rejects stops the
    attempt after the object was loaded: the attempt returns the
    unmarshalling error, neither the hash nor the unseal command is
    issued, and the three handles created so far are flushed, last created
    first. *)
Theorem rev1_rejected_password_stops_before_hash
    (public private : bytes) (pcrs : list Z) (bank : Algorithm)
    (policyHash : bytes) (password : option bytes)
    (env : Env) (h : History) (e : error)
    (dev : Conn) (key obj : Handle)
    (Hbad : unmarshalU16Bytes env (slice_bytes password) = Err e)
    (Hload : In (EvLoad dev key EmptyString public private (Ok obj))
                (events_of (Rev1.tpm2Unseal public private pcrs bank
                              policyHash password) env h)) :
  value_of (Rev1.tpm2Unseal public private pcrs bank policyHash password)
    env h = Err "tpmutil: failed when unmarshalling buffer" /\
  existsb is_hash
    (events_of (Rev1.tpm2Unseal public private pcrs bank policyHash password)
       env h) = false /\
  existsb is_unseal
    (events_of (Rev1.tpm2Unseal public private pcrs bank policyHash password)
       env h) = false /\
  exists sess,
    created
      (events_of (Rev1.tpm2Unseal public private pcrs bank policyHash
                    password) env h) = [sess; key; obj] /\
    flushed
      (events_of (Rev1.tpm2Unseal public private pcrs bank policyHash
                    password) env h) = [obj; key; sess].
Proof.
  revert Hbad Hload. run_once; intros Hbad Hload; simpl in Hload;
    pick_event; try discriminate Hbad;
    repeat split; eexists; split; reflexivity.
Qed.

Lemma rev1_rejected_password_stops_before_hash_witness :
  let env := Sim.env false recorded Sim.NoFault in
  unmarshalU16Bytes env (slice_bytes None) = Err "EOF" /\
  value_of (Rev1.tpm2Unseal blobPublic blobPrivate [] AlgSHA256 recorded
              None) env [] =
    Err "tpmutil: failed when unmarshalling buffer".
Proof.
  intros env.
  assert (Hbad : unmarshalU16Bytes env (slice_bytes None) = Err "EOF")
    by reflexivity.
  split; [exact Hbad|].
  refine (proj1 (rev1_rejected_password_stops_before_hash blobPublic
                   blobPrivate [] AlgSHA256 recorded None env [] "EOF" 3
                   0x80000000 0x80000001 Hbad _)).
  vm_compute. tauto.
Defined.

(** ** The key template *)

(** [getSRKTemplate] succeeds exactly for the names "rsa" and "ecc".  A
    template it returns has the SHA-256 name algorithm, the attribute word
    [0x30472], no authorization policy, and the parameter block of its own
    type only, with the AES-128-CFB symmetric scheme; the RSA one is the
    template [tpm2Unseal] builds inline.  For any other name it returns
    the zero template with the error. *)
Theorem getSRKTemplate_succeeds_for_rsa_and_ecc_only (encryptAlg : string) :
  (snd (Rev2.getSRKTemplate encryptAlg) = None <->
   encryptAlg = "rsa" \/ encryptAlg = "ecc") /\
  match Rev2.getSRKTemplate encryptAlg with
  | (template, None) =>
      NameAlg template = AlgSHA256 /\
      Attributes template = 0x30472 /\
      AuthPolicy template = [] /\
      ((Type_ template = AlgRSA /\ template = Rev2.srkTemplate) \/
       (Type_ template = AlgECC /\
        RSAParameters template = None /\
        ECCParameters template =
          Some {| ECCSymmetric :=
                    Some {| Alg := AlgAES; SymKeyBits := 128;
                            Mode := AlgCFB |};
                  CurveID := CurveNISTP256 |}))
  | (template, Some err) =>
      template = Public_zero /\ err = UnsupportedAlgorithm
  end.
Proof.
  unfold Rev2.getSRKTemplate.
  destruct (String.eqb_spec encryptAlg "rsa") as [->|Hr].
  - cbn [snd]. repeat split; auto.
  - destruct (String.eqb_spec encryptAlg "ecc") as [->|He].
    + cbn [snd]. repeat split; auto 6.
    + cbn [snd]. split; [|split; reflexivity].
      split; [discriminate | intros [H|H]; contradiction].
Qed.

Lemma getSRKTemplate_succeeds_for_rsa_and_ecc_only_witness :
  snd (Rev2.getSRKTemplate "ecc") = None.
Proof.
  exact (proj2 (proj1 (getSRKTemplate_succeeds_for_rsa_and_ecc_only "ecc"))
               (or_intror eq_refl)).
Defined.

(** ** Errors and what is left behind *)

(** Trying the events of a trace one after the other. *)
Ltac try_events l k :=
  lazymatch l with
  | ?e :: ?l' => first [k e | try_events l' k]
  end.

(** The failed command of a path, as the witness of a reported error. *)
Ltac failed_command :=
  match goal with
  | |- exists e, In e ?l /\ _ =>
      try_events l
        ltac:(fun e =>
                solve [ exists e;
                        split; [simpl; tauto|];
                        split; [reflexivity|]; split; reflexivity ])
  end.

(** The digest read of a path, as the witness of a mismatch. *)
Ltac digest_read :=
  match goal with
  | H : ?p <> ?q
    |- exists dev sess policy, In (EvPolicyGetDigest dev sess (Ok policy)) ?l
                               /\ policy <> ?q =>
      match l with
      | context [EvPolicyGetDigest ?d ?s (Ok p)] =>
          exists d, s, p; split; [simpl; tauto | exact H]
      end
  end.

(** The errors an attempt can return, and where each comes from.  An
    attempt returns the error [msg] exactly in these cases: a command of
    the pipeline, which is neither a flush nor the close, failed, and
    [msg] is that command's error with the message of its stage (the open
    and the password-predicate errors unwrapped, the causes of a failed
    manufacturer query and of a failed hash dropped); or the digest read
    back differed from the recorded one and [msg] is the PolicyMismatch
    error; or, in revision 1, the password was rejected by the [U16Bytes]
    decoder after a successful load.  So a failed flush or close never
    turns into the result, and never hides the error of the pipeline. *)
Theorem failed_command_determines_error
    (public private : bytes) (pcrs : list Z) (bank : Algorithm)
    (policyHash : bytes) (password : option bytes) (encryptAlg : string)
    (srk salt : bytes) (env : Env) (h : History) (msg : error) :
  (value_of (Rev2.tpm2Unseal public private pcrs bank policyHash password
               encryptAlg srk salt) env h = Err msg <->
   (exists e,
      In e (events_of (Rev2.tpm2Unseal public private pcrs bank policyHash
                         password encryptAlg srk salt) env h) /\
      reported e = Some msg /\ is_flush e = false /\ is_close e = false) \/
   (msg = PolicyMismatch /\
    exists dev sess policy,
      In (EvPolicyGetDigest dev sess (Ok policy))
         (events_of (Rev2.tpm2Unseal public private pcrs bank policyHash
                       password encryptAlg srk salt) env h) /\
      policy <> policyHash)) /\
  (value_of (Rev1.tpm2Unseal public private pcrs bank policyHash password)
     env h = Err msg <->
   (exists e,
      In e (events_of (Rev1.tpm2Unseal public private pcrs bank policyHash
                         password) env h) /\
      reported e = Some msg /\ is_flush e = false /\ is_close e = false) \/
   (msg = PolicyMismatch /\
    exists dev sess policy,
      In (EvPolicyGetDigest dev sess (Ok policy))
         (events_of (Rev1.tpm2Unseal public private pcrs bank policyHash
                       password) env h) /\
      policy <> policyHash) \/
   (msg = "tpmutil: failed when unmarshalling buffer" /\
    (exists cause, unmarshalU16Bytes env (slice_bytes password) = Err cause)
    /\ existsb is_hash
         (events_of (Rev1.tpm2Unseal public private pcrs bank policyHash
                       password) env h) = false
    /\ exists dev key obj,
         In (EvLoad dev key EmptyString public private (Ok obj))
            (events_of (Rev1.tpm2Unseal public private pcrs bank policyHash
                          password) env h))).
Proof.
  split.
  - run_once; digest_test; split.
    all: try solve
           [ intros Hv; try discriminate Hv; injection Hv as <-;
             first [ left; failed_command
                   | right; split; [reflexivity | digest_read] ] ].
    all: intros [(ev & Hin & Hrep & Hf & Hc)
                | [-> (xd & xs & xp & Hin & Hne)]];
      simpl in Hin;
      repeat match goal with
      | H : _ \/ _ |- _ => destruct H
      | H : False |- _ => destruct H
      | H : _ = ev |- _ => subst ev
      end;
      try (cbn in Hrep; first [discriminate Hrep | congruence]);
      try discriminate Hf; try discriminate Hc;
      pick_event; first [contradiction | reflexivity | congruence].
  - run_once; digest_test; split.
    all: try solve
           [ intros Hv; try discriminate Hv; injection Hv as <-;
             first [ left; failed_command
                   | right; left; split; [reflexivity | digest_read]
                   | right; right; split; [reflexivity|];
                     split; [eexists; reflexivity|];
                     split; [reflexivity|];
                     do 3 eexists; simpl; tauto ] ].
    all: intros [(ev & Hin & Hrep & Hf & Hc)
                | [[-> (xd & xs & xp & Hin & Hne)]
                  | [-> [[cause Hun] [Hh (xd & xk & xo & Hin)]]]]];
      simpl in Hin;
      repeat match goal with
      | H : _ \/ _ |- _ => destruct H
      | H : False |- _ => destruct H
      | H : _ = ev |- _ => subst ev
      end;
      try (cbn in Hrep; first [discriminate Hrep | congruence]);
      try discriminate Hf; try discriminate Hc; try discriminate Hh;
      pick_event; first [contradiction | reflexivity | congruence].
Qed.

Lemma failed_command_determines_error_witness :
  let env := Sim.env false recorded Sim.FailLoad in
  value_of (Rev2.tpm2Unseal blobPublic blobPrivate [7] AlgSHA256 recorded
              (Some pw) "rsa" [] salt16) env [] =
    Err "clevis.go/tpm2: unable to load data: integrity" /\
  value_of (Rev1.tpm2Unseal blobPublic blobPrivate [7] AlgSHA256 recorded
              (Some pwFramed)) env [] =
    Err "clevis.go/tpm2: unable to load data: integrity".
Proof.
  intros env. split.
  - apply (proj2 (proj1 (failed_command_determines_error blobPublic
                           blobPrivate [7] AlgSHA256 recorded (Some pw)
                           "rsa" [] salt16 env []
                           "clevis.go/tpm2: unable to load data: integrity"))).
    left.
    exists (EvLoad 3 0x80000000 EmptyString blobPublic blobPrivate
              (Err "integrity")).
    split; [vm_compute; tauto | repeat split].
  - apply (proj2 (proj2 (failed_command_determines_error blobPublic
                           blobPrivate [7] AlgSHA256 recorded (Some pwFramed)
                           "rsa" [] salt16 env []
                           "clevis.go/tpm2: unable to load data: integrity"))).
    left.
    exists (EvLoad 3 0x80000000 EmptyString blobPublic blobPrivate
              (Err "integrity")).
    split; [vm_compute; tauto | repeat split].
Defined.

(** What an attempt leaves in the module, when the device refuses no
    flush: nothing once the session build has succeeded (the primary-key
    creation was issued), whatever happens later; otherwise every handle
    created, that is the session handle when the build failed after the
    session was started. *)
Theorem handles_left_behind
    (public private : bytes) (pcrs : list Z) (bank : Algorithm)
    (policyHash : bytes) (password : option bytes) (encryptAlg : string)
    (srk salt : bytes) (env : Env) (h : History) :
  (existsb is_failed_flush
     (events_of (Rev2.tpm2Unseal public private pcrs bank policyHash password
                   encryptAlg srk salt) env h) = false ->
   outstanding_handles
     (events_of (Rev2.tpm2Unseal public private pcrs bank policyHash password
                   encryptAlg srk salt) env h) =
     if existsb is_createPrimary
          (events_of (Rev2.tpm2Unseal public private pcrs bank policyHash
                        password encryptAlg srk salt) env h)
     then []
     else created
            (events_of (Rev2.tpm2Unseal public private pcrs bank policyHash
                          password encryptAlg srk salt) env h)) /\
  (existsb is_failed_flush
     (events_of (Rev1.tpm2Unseal public private pcrs bank policyHash password)
        env h) = false ->
   outstanding_handles
     (events_of (Rev1.tpm2Unseal public private pcrs bank policyHash password)
        env h) =
     if existsb is_createPrimary
          (events_of (Rev1.tpm2Unseal public private pcrs bank policyHash
                        password) env h)
     then []
     else created
            (events_of (Rev1.tpm2Unseal public private pcrs bank policyHash
                          password) env h)).
Proof.
  unfold outstanding_handles.
  split; run_goal; intros Hf; same_handle; try discriminate Hf;
    reflexivity.
Qed.

Lemma handles_left_behind_witness :
  let env := Sim.env false recorded Sim.FailUnseal in
  outstanding_handles
    (events_of (Rev2.tpm2Unseal blobPublic blobPrivate [7] AlgSHA256 recorded
                  (Some pw) "rsa" [] salt16) env []) = [] /\
  outstanding_handles
    (events_of (Rev1.tpm2Unseal blobPublic blobPrivate [7] AlgSHA256 other
                  (Some pwFramed)) env []) = [0x03000000].
Proof.
  intros env. split.
  - refine (proj1 (handles_left_behind blobPublic blobPrivate [7] AlgSHA256
                     recorded (Some pw) "rsa" [] salt16 env []) _).
    reflexivity.
  - refine (proj2 (handles_left_behind blobPublic blobPrivate [7] AlgSHA256
                     other (Some pwFramed) "rsa" [] salt16 env []) _).
    reflexivity.
Defined.

(** ** The FIDO2 probe *)

Ltac unfold_fido :=
  unfold Fido2.IsFido2, Fido2.openFido2Device, Fido2.closeFido2Device,
    Fido2.defer, Fido2.bind, Fido2.ret, Fido2.call, Fido2.C_fido_dev_new,
    Fido2.C_CString, Fido2.C_fido_dev_open, Fido2.C_fido_dev_is_fido2,
    Fido2.C_fido_dev_close, Fido2.C_fido_dev_free, Fido2.info, Fido2.Lock,
    Fido2.Unlock, Fido2.read_path, Fido2.write_dev in *.

Ltac pick_fido_event :=
  repeat match goal with
  | H : _ \/ _ |- _ => destruct H
  | H : False |- _ => destruct H
  | H : @eq Fido2.Event _ _ |- _ =>
      first [discriminate H | injection H as ? ; subst | clear H]
  end.

(** When libfido2 refuses to open the device, [IsFido2] returns [false]
    with the open error after three C calls: the [fido_dev_t] it allocated
    is neither closed nor freed, and the [Device] is left as it was,
    whatever the state of its mutex. *)
Theorem IsFido2_open_failure_frees_nothing
    (env : Fido2.Env) (h : list Fido2.Event) (d : Fido2.Device)
    (p s : Fido2.Ptr) (rc : Z)
    (Hopen : In (Fido2.EvDevOpen p s rc) (snd (Fido2.IsFido2 env h d)))
    (Hrc : rc <> Fido2.FIDO_OK) :
  Fido2.IsFido2 env h d =
    (Fido2.Returned (false, Some "failed to open hidraw device") d,
     [Fido2.EvDevNew p; Fido2.EvCString (Fido2.path d) s;
      Fido2.EvDevOpen p s rc]).
Proof.
  revert Hopen. unfold_fido. cbn.
  repeat (split_goal; cbn); intros Hopen; pick_fido_event;
    try reflexivity;
    match goal with
    | H : negb (Z.eqb _ _) = false |- _ =>
        apply negb_false_iff, Z.eqb_eq in H; contradiction
    end.
Qed.

Lemma IsFido2_open_failure_frees_nothing_witness :
  Fido2.IsFido2 (Fido2.sim 0) [] (Fido2.NewFido2Device "/dev/sda") =
    (Fido2.Returned (false, Some "failed to open hidraw device")
       (Fido2.NewFido2Device "/dev/sda"),
     [Fido2.EvDevNew 0x1000; Fido2.EvCString "/dev/sda" 0x2000;
      Fido2.EvDevOpen 0x1000 0x2000 (-1)]).
Proof.
  refine (IsFido2_open_failure_frees_nothing (Fido2.sim 0) []
            (Fido2.NewFido2Device "/dev/sda") 0x1000 0x2000 (-1) _ _).
  - vm_compute. tauto.
  - discriminate.
Defined.

(** When the open succeeds and the mutex is free, [IsFido2] returns what
    [fido_dev_is_fido2] answered and no error.  The query comes before the
    release; the release takes and gives back the mutex, closes the device
    and frees it, and the device is freed also when the close failed (which
    is only logged).  The [Device] ends with a nil handle and a free
    mutex. *)
Theorem IsFido2_closes_and_frees_after_query
    (env : Fido2.Env) (h : list Fido2.Event) (d : Fido2.Device)
    (p s : Fido2.Ptr)
    (Hopen : In (Fido2.EvDevOpen p s Fido2.FIDO_OK)
                (snd (Fido2.IsFido2 env h d)))
    (Hfree : Fido2.locked d = false) :
  exists (answer : bool) (rc : Z),
    Fido2.IsFido2 env h d =
      (Fido2.Returned (answer, None) (Fido2.set_dev d Fido2.nil),
       [Fido2.EvDevNew p; Fido2.EvCString (Fido2.path d) s;
        Fido2.EvDevOpen p s Fido2.FIDO_OK; Fido2.EvDevIsFido2 p answer;
        Fido2.EvLock; Fido2.EvUnlock; Fido2.EvDevClose p rc]
       ++ (if Z.eqb rc Fido2.FIDO_OK then []
           else [Fido2.EvInfo "failed to close hidraw device"])
       ++ [Fido2.EvDevFree p]).
Proof.
  revert Hopen. unfold_fido. destruct d as [dpath ddev dlocked].
  cbn in Hfree. subst dlocked. cbn.
  repeat (split_goal; cbn); intros Hopen; pick_fido_event;
    repeat match goal with
    | H : _ = Fido2.FIDO_OK |- _ => rewrite H in *; clear H
    end;
    try discriminate;
    match goal with
    | H : negb (Z.eqb (Fido2.fido_dev_close ?e ?hh ?pp) _) = _ |- _ =>
        eexists; exists (Fido2.fido_dev_close e hh pp);
        destruct (Z.eqb (Fido2.fido_dev_close e hh pp) Fido2.FIDO_OK);
        first [discriminate H | reflexivity]
    end.
Qed.

Lemma IsFido2_closes_and_frees_after_query_witness :
  exists (answer : bool) (rc : Z),
    Fido2.IsFido2 (Fido2.sim 5) [] (Fido2.NewFido2Device "/dev/hidraw0") =
      (Fido2.Returned (answer, None)
         (Fido2.set_dev (Fido2.NewFido2Device "/dev/hidraw0") Fido2.nil),
       [Fido2.EvDevNew 0x1000; Fido2.EvCString "/dev/hidraw0" 0x2000;
        Fido2.EvDevOpen 0x1000 0x2000 Fido2.FIDO_OK;
        Fido2.EvDevIsFido2 0x1000 answer;
        Fido2.EvLock; Fido2.EvUnlock; Fido2.EvDevClose 0x1000 rc]
       ++ (if Z.eqb rc Fido2.FIDO_OK then []
           else [Fido2.EvInfo "failed to close hidraw device"])
       ++ [Fido2.EvDevFree 0x1000]).
Proof.
  refine (IsFido2_closes_and_frees_after_query (Fido2.sim 5) []
            (Fido2.NewFido2Device "/dev/hidraw0") 0x1000 0x2000 _ _).
  - vm_compute. tauto.
  - reflexivity.
Defined.

(** A probe leaves a freshly made [Device] as [NewFido2Device] made it:
    for every libfido2 behaviour [IsFido2] returns (it neither waits for
    the mutex nor unlocks a free mutex), with the handle nil and the mutex
    free again. *)
Theorem IsFido2_restores_fresh_device
    (env : Fido2.Env) (h : list Fido2.Event) (path : string) :
  exists r : bool * option error,
    fst (Fido2.IsFido2 env h (Fido2.NewFido2Device path)) =
      Fido2.Returned r (Fido2.NewFido2Device path).
Proof.
  unfold_fido. cbn.
  repeat (split_goal; cbn); eexists; reflexivity.
Qed.
